(** * MMA8451Q accelerometer driver (Sources/inertial/mma8451q.c)

    A shallow embedding of the register-level driver of the FRDM-KL25Z
    accelerometer firmware.  Integers are [Z] with the C conversions written
    out, the I2C bus is an explicit state (the register file of every slave
    plus the list of transactions issued so far) threaded through a small
    state monad, and every driver function is transcribed statement by
    statement from the C source.  The register macros and the register
    structures of Project_Headers/imu/mpu6050.h are embedded as tables. *)

From Stdlib Require Import ZArith List Bool Lia Btauto.
From Stdlib Require String.
Import ListNotations.
Local Open Scope Z_scope.

(** ** Fixed-width integers *)

(** Conversion to [uint8_t]. *)
Definition u8 (z : Z) : Z := z mod 2 ^ 8.

(** Conversion to [uint16_t]. *)
Definition u16 (z : Z) : Z := z mod 2 ^ 16.

(** Conversion to [int16_t] (two's complement wrap-around). *)
Definition i16 (z : Z) : Z := (z + 2 ^ 15) mod 2 ^ 16 - 2 ^ 15.

(** Conversion to a 32-bit [int], the type the enum arguments are promoted to
    before they are shifted. *)
Definition i32 (z : Z) : Z := (z + 2 ^ 31) mod 2 ^ 32 - 2 ^ 31.

(** A register holds eight bits. *)
Definition is_byte (v : Z) : Prop := 0 <= v < 256.

(** ** The I2C bus *)

Module I2C.

(** One bus transaction, as the driver requests it. *)
Inductive transaction : Type :=
| ReadRegister (slaveId registerAddress : Z)
| ReadRegisters (slaveId startRegisterAddress registerCount : Z)
| WriteRegister (slaveId registerAddress value : Z)
| ModifyRegister (slaveId registerAddress andMask orMask : Z).

(** The bus: the registers of every slave, and the transactions issued so
    far, oldest first. *)
Record bus : Type := mkBus {
  regs : Z -> Z -> Z;
  log : list transaction
}.

(** Every register of every slave holds a byte. *)
Definition bytes_only (b : bus) : Prop :=
  forall slaveId registerAddress, is_byte (regs b slaveId registerAddress).

(** Two buses whose registers agree everywhere. *)
Definition same_regs (b1 b2 : bus) : Prop :=
  forall slaveId registerAddress,
    regs b1 slaveId registerAddress = regs b2 slaveId registerAddress.

(** Register file with one register replaced. *)
Definition store (f : Z -> Z -> Z) (slaveId registerAddress v : Z) : Z -> Z -> Z :=
  fun s r => if (s =? slaveId) && (r =? registerAddress) then v else f s r.

(** Computations on the bus. *)
Definition io (A : Type) : Type := bus -> A * bus.

Definition ret {A : Type} (a : A) : io A := fun b => (a, b).

Definition bind {A B : Type} (m : io A) (k : A -> io B) : io B :=
  fun b => let (a, b') := m b in k a b'.

(** The bus after a computation, and the value it returned. *)
Definition exec {A : Type} (m : io A) (b : bus) : bus := snd (m b).
Definition eval {A : Type} (m : io A) (b : bus) : A := fst (m b).

End I2C.

Import I2C.

Declare Scope io_scope.
Delimit Scope io_scope with io.
Notation "x <- m ;; k" := (bind m (fun x => k))
  (at level 61, m at next level, right associativity) : io_scope.
Notation "m ;; k" := (bind m (fun _ => k))
  (at level 61, right associativity) : io_scope.
Local Open Scope io_scope.


(** Modelled from the spec: [writeRegister(deviceAddr, regAddr, byte)]; the
    value parameter is a [uint8_t]. *)
Definition I2C_WriteRegister (slaveId registerAddress value : Z) : io unit :=
  fun b =>
    (tt,
     mkBus (store (regs b) slaveId registerAddress (u8 value))
           (log b ++ [WriteRegister slaveId registerAddress value])).

(** Modelled from the spec: [readBurst(deviceAddr, startRegAddr, count) ->
    bytes], one transaction transferring [registerCount] consecutive register
    addresses. *)
Definition I2C_ReadRegisters (slaveId startRegisterAddress registerCount : Z)
  : io (list Z) :=
  fun b =>
    (map (fun k => u8 (regs b slaveId (startRegisterAddress + Z.of_nat k)))
         (seq 0 (Z.to_nat registerCount)),
     mkBus (regs b)
           (log b ++ [ReadRegisters slaveId startRegisterAddress registerCount])).

(** Modelled from the spec: the byte the read-mask-write of the provider
    computes from the byte it read: ANDed with the first mask, then ORed with
    the second one. *)
Definition modified (current andMask orMask : Z) : Z :=
  u8 (Z.lor (Z.land (u8 current) andMask) orMask).

(** Modelled from the spec: [modifyRegister(deviceAddr, regAddr, clearMask,
    setMask)], the atomic read-mask-write: read the register, AND it with the
    first mask, OR the second mask in, write the result back.  The first
    mask is an AND mask: the driver passes the complement of the bits it
    wants cleared, and [I2C_MOD_NO_AND_MASK] when it clears none. *)
Definition I2C_ModifyRegister (slaveId registerAddress andMask orMask : Z)
  : io unit :=
  fun b =>
    (tt,
     mkBus (store (regs b) slaveId registerAddress
                  (modified (regs b slaveId registerAddress) andMask orMask))
           (log b ++ [ModifyRegister slaveId registerAddress andMask orMask])).

(** Modelled from the spec: the masks of the provider that leave the register
    as it is ("mask-is-identity-no-op"): AND with all ones, OR with zero. *)
Definition I2C_MOD_NO_AND_MASK : Z := 0xFF.
Definition I2C_MOD_NO_OR_MASK : Z := 0x00.

(** ** Endianness (endian.h) *)

(** Byte order of the host the firmware runs on. *)
Inductive byte_order : Type := LittleEndian | BigEndian.

(** Modelled from the spec: the declared wire orders of endian.h, which is
    not among the sources. *)
Inductive endian_t : Type := FROM_BIG_ENDIAN | FROM_LITTLE_ENDIAN.

(** Modelled from the spec: [nativeOrderDiffersFrom(declaredOrder) -> bool]. *)
Definition endianCorrectionRequired (host : byte_order) (type : endian_t) : bool :=
  match host, type with
  | LittleEndian, FROM_BIG_ENDIAN => true
  | BigEndian, FROM_LITTLE_ENDIAN => true
  | _, _ => false
  end.

(** Modelled from the spec: [swap16(value) -> value], the two bytes of a
    16-bit word exchanged: the low byte moves up, the high byte moves down. *)
Definition ENDIANSWAP_16 (x : Z) : Z :=
  (u16 x mod 2 ^ 8) * 2 ^ 8 + u16 x / 2 ^ 8.

(** The [int16_t] the host reads from two bytes at consecutive addresses,
    the first one at the lower address. *)
Definition load_int16 (host : byte_order) (b0 b1 : Z) : Z :=
  match host with
  | LittleEndian => i16 (b0 + 2 ^ 8 * b1)
  | BigEndian => i16 (2 ^ 8 * b0 + b1)
  end.

(** The signed value of a 16-bit word sent most significant byte first. *)
Definition big_endian_int16 (msb lsb : Z) : Z := i16 (2 ^ 8 * msb + lsb).

(** ** The driver *)

(** Modelled from the spec: a measurement sample of mma8451q.h (not among the
    sources), one status byte and three signed 16-bit axis values; the
    padding byte in front of [status] carries no data. *)
Record mma8451q_acc_t : Type := mkAcc {
  status : Z;
  x : Z;
  y : Z;
  z : Z
}.

(** The sample after [bytes] have been written to memory from the address of
    its [status] field on: the status byte, then the two bytes of each axis
    in address order.  A burst of any other length than seven does not occur
    in the driver and leaves the sample as it is. *)
Definition overlay_from_status (host : byte_order) (bytes : list Z)
    (data : mma8451q_acc_t) : mma8451q_acc_t :=
  match bytes with
  | [st; x0; x1; y0; y1; z0; z1] =>
      mkAcc st (load_int16 host x0 x1) (load_int16 host y0 y1)
            (load_int16 host z0 z1)
  | _ => data
  end.

(** Modelled from the spec: the two interrupt output pins
    ([mma8451q_intpin_t] of mma8451q.h, not among the sources). *)
Inductive mma8451q_intpin_t : Type :=
| MMA8451Q_INTPIN_INT1
| MMA8451Q_INTPIN_INT2.

Definition intpin_eqb (p q : mma8451q_intpin_t) : bool :=
  match p, q with
  | MMA8451Q_INTPIN_INT1, MMA8451Q_INTPIN_INT1 => true
  | MMA8451Q_INTPIN_INT2, MMA8451Q_INTPIN_INT2 => true
  | _, _ => false
  end.

(** Modelled from the spec: the configuration aggregate
    ([mma8451q_confreg_t] of mma8451q.h, not among the sources), an ordered
    sequence of fields, each one the image of one register address. *)
Record confreg_field : Type := mkField {
  field_register : Z;
  field_value : Z
}.

Definition mma8451q_confreg_t : Type := list confreg_field.

(** How a call ends: it returns, or an [assert] fails. *)
Inductive outcome (A : Type) : Type :=
| Returned (a : A)
| AssertionFailed.
Arguments Returned {A} a.
Arguments AssertionFailed {A}.

Definition CTRL_REG1_DR_MASK : Z := 0x38.
Definition CTRL_REG1_DR_SHIFT : Z := 0x3.
Definition CTRL_REG1_LNOISE_MASK : Z := 0x4.
Definition CTRL_REG1_LNOISE_SHIFT : Z := 0x2.

Definition CTRL_REG2_MODS_MASK : Z := 0x38.
Definition CTRL_REG2_MODS_SHIFT : Z := 0x3.

Definition CTRL_REG3_IPOL_MASK : Z := 0x2.
Definition CTRL_REG3_IPOL_SHIFT : Z := 0x1.
Definition CTRL_REG3_PPOD_MASK : Z := 0x1.
Definition CTRL_REG3_PPOD_SHIFT : Z := 0x0.

(** The C operator [<<] on an [int] operand (the enum arguments are promoted
    to [int]); the driver keeps only bits 0..7 of the result, which are the
    same for an unsigned operand. *)
Definition shl (a n : Z) : Z := i32 (Z.shiftl a n).

(** ** The MPU6050 register map (Project_Headers/imu/mpu6050.h) *)

Module MPU6050.

Import String.
Local Open Scope string_scope.

(** The access right the header documents beside each address. *)
Inductive access_t : Type := ReadOnly | ReadWrite.

(** One [#define MPU6050_REG_...]: the macro, its address, whether the
    register is part of register map revision 4.3 (the macro is not tagged
    [not_in_RM_rev43]) and the documented access right. *)
Record reg_def : Type := mkReg {
  reg_name : string;
  reg_addr : Z;
  reg_rev43 : bool;
  reg_access : access_t
}.

(** The register macros in the order of the header.  The macro
    [MPU6050_REG_XG_OFFS_TC] is defined as its own name and so has no
    address: it is no entry of the table. *)
Definition registers : list reg_def :=
  [mkReg "MPU6050_REG_AUX_VDDIO" 0x00 false ReadWrite;
   mkReg "MPU6050_REG_YG_OFFS_TC" 0x01 false ReadWrite;
   mkReg "MPU6050_REG_ZG_OFFS_TC" 0x02 false ReadWrite;
   mkReg "MPU6050_REG_X_FINE_GAIN" 0x03 false ReadWrite;
   mkReg "MPU6050_REG_Y_FINE_GAIN" 0x04 false ReadWrite;
   mkReg "MPU6050_REG_Z_FINE_GAIN" 0x05 false ReadWrite;
   mkReg "MPU6050_REG_XA_OFFS_H" 0x06 false ReadWrite;
   mkReg "MPU6050_REG_XA_OFFS_L_TC" 0x07 false ReadWrite;
   mkReg "MPU6050_REG_YA_OFFS_H" 0x08 false ReadWrite;
   mkReg "MPU6050_REG_YA_OFFS_L_TC" 0x09 false ReadWrite;
   mkReg "MPU6050_REG_ZA_OFFS_H" 0x0A false ReadWrite;
   mkReg "MPU6050_REG_ZA_OFFS_L_TC" 0x0B false ReadWrite;
   mkReg "MPU6050_REG_SELF_TEST_X" 0x0D true ReadWrite;
   mkReg "MPU6050_REG_SELF_TEST_Y" 0x0E true ReadWrite;
   mkReg "MPU6050_REG_SELF_TEST_Z" 0x0F true ReadWrite;
   mkReg "MPU6050_REG_SELF_TEST_A" 0x10 true ReadWrite;
   mkReg "MPU6050_REG_XG_OFFS_USRH" 0x13 false ReadWrite;
   mkReg "MPU6050_REG_XG_OFFS_USRL" 0x14 false ReadWrite;
   mkReg "MPU6050_REG_YG_OFFS_USRH" 0x15 false ReadWrite;
   mkReg "MPU6050_REG_YG_OFFS_USRL" 0x16 false ReadWrite;
   mkReg "MPU6050_REG_ZG_OFFS_USRH" 0x17 false ReadWrite;
   mkReg "MPU6050_REG_ZG_OFFS_USRL" 0x18 false ReadWrite;
   mkReg "MPU6050_REG_SMPLRT_DIV" 0x19 true ReadWrite;
   mkReg "MPU6050_REG_CONFIG" 0x1A true ReadWrite;
   mkReg "MPU6050_REG_GYRO_CONFIG" 0x1B true ReadWrite;
   mkReg "MPU6050_REG_ACCEL_CONFIG" 0x1C true ReadWrite;
   mkReg "MPU6050_REG_FF_THR" 0x1D false ReadWrite;
   mkReg "MPU6050_REG_FF_DUR" 0x1E false ReadWrite;
   mkReg "MPU6050_REG_MOT_THR" 0x1F false ReadWrite;
   mkReg "MPU6050_REG_MOT_DUR" 0x20 false ReadWrite;
   mkReg "MPU6050_REG_ZRMOT_THR" 0x21 false ReadWrite;
   mkReg "MPU6050_REG_ZRMOT_DUR" 0x22 false ReadWrite;
   mkReg "MPU6050_REG_FIFO_EN" 0x23 true ReadWrite;
   mkReg "MPU6050_REG_I2C_MST_CTRL" 0x24 true ReadWrite;
   mkReg "MPU6050_REG_I2C_SLV0_ADDR" 0x25 true ReadWrite;
   mkReg "MPU6050_REG_I2C_SLV0_REG" 0x26 true ReadWrite;
   mkReg "MPU6050_REG_I2C_SLV0_CTRL" 0x27 true ReadWrite;
   mkReg "MPU6050_REG_I2C_SLV1_ADDR" 0x28 true ReadWrite;
   mkReg "MPU6050_REG_I2C_SLV1_REG" 0x29 true ReadWrite;
   mkReg "MPU6050_REG_I2C_SLV1_CTRL" 0x2A true ReadWrite;
   mkReg "MPU6050_REG_I2C_SLV2_ADDR" 0x2B true ReadWrite;
   mkReg "MPU6050_REG_I2C_SLV2_REG" 0x2C true ReadWrite;
   mkReg "MPU6050_REG_I2C_SLV2_CTRL" 0x2D true ReadWrite;
   mkReg "MPU6050_REG_I2C_SLV3_ADDR" 0x2E true ReadWrite;
   mkReg "MPU6050_REG_I2C_SLV3_REG" 0x2F true ReadWrite;
   mkReg "MPU6050_REG_I2C_SLV3_CTRL" 0x30 true ReadWrite;
   mkReg "MPU6050_REG_I2C_SLV4_ADDR" 0x31 true ReadWrite;
   mkReg "MPU6050_REG_I2C_SLV4_REG" 0x32 true ReadWrite;
   mkReg "MPU6050_REG_I2C_SLV4_DO" 0x33 true ReadWrite;
   mkReg "MPU6050_REG_I2C_SLV4_CTRL" 0x34 true ReadWrite;
   mkReg "MPU6050_REG_I2C_SLV4_DI" 0x35 true ReadOnly;
   mkReg "MPU6050_REG_I2C_MST_STATUS" 0x36 true ReadOnly;
   mkReg "MPU6050_REG_INT_PIN_CFG" 0x37 true ReadWrite;
   mkReg "MPU6050_REG_INT_ENABLE" 0x38 true ReadWrite;
   mkReg "MPU6050_REG_DMP_INT_STATUS" 0x39 false ReadOnly;
   mkReg "MPU6050_REG_INT_STATUS" 0x3A true ReadOnly;
   mkReg "MPU6050_REG_ACCEL_XOUT_H" 0x3B true ReadOnly;
   mkReg "MPU6050_REG_ACCEL_XOUT_L" 0x3C true ReadOnly;
   mkReg "MPU6050_REG_ACCEL_YOUT_H" 0x3D true ReadOnly;
   mkReg "MPU6050_REG_ACCEL_YOUT_L" 0x3E true ReadOnly;
   mkReg "MPU6050_REG_ACCEL_ZOUT_H" 0x3F true ReadOnly;
   mkReg "MPU6050_REG_ACCEL_ZOUT_L" 0x40 true ReadOnly;
   mkReg "MPU6050_REG_TEMP_OUT_H" 0x41 true ReadOnly;
   mkReg "MPU6050_REG_TEMP_OUT_L" 0x42 true ReadOnly;
   mkReg "MPU6050_REG_GYRO_XOUT_H" 0x43 true ReadOnly;
   mkReg "MPU6050_REG_GYRO_XOUT_L" 0x44 true ReadOnly;
   mkReg "MPU6050_REG_GYRO_YOUT_H" 0x45 true ReadOnly;
   mkReg "MPU6050_REG_GYRO_YOUT_L" 0x46 true ReadOnly;
   mkReg "MPU6050_REG_GYRO_ZOUT_H" 0x47 true ReadOnly;
   mkReg "MPU6050_REG_GYRO_ZOUT_L" 0x48 true ReadOnly;
   mkReg "MPU6050_REG_EXT_SENS_DATA_00" 0x49 true ReadOnly;
   mkReg "MPU6050_REG_EXT_SENS_DATA_01" 0x4A true ReadOnly;
   mkReg "MPU6050_REG_EXT_SENS_DATA_02" 0x4B true ReadOnly;
   mkReg "MPU6050_REG_EXT_SENS_DATA_03" 0x4C true ReadOnly;
   mkReg "MPU6050_REG_EXT_SENS_DATA_04" 0x4D true ReadOnly;
   mkReg "MPU6050_REG_EXT_SENS_DATA_05" 0x4E true ReadOnly;
   mkReg "MPU6050_REG_EXT_SENS_DATA_06" 0x4F true ReadOnly;
   mkReg "MPU6050_REG_EXT_SENS_DATA_07" 0x50 true ReadOnly;
   mkReg "MPU6050_REG_EXT_SENS_DATA_08" 0x51 true ReadOnly;
   mkReg "MPU6050_REG_EXT_SENS_DATA_09" 0x52 true ReadOnly;
   mkReg "MPU6050_REG_EXT_SENS_DATA_10" 0x53 true ReadOnly;
   mkReg "MPU6050_REG_EXT_SENS_DATA_11" 0x54 true ReadOnly;
   mkReg "MPU6050_REG_EXT_SENS_DATA_12" 0x55 true ReadOnly;
   mkReg "MPU6050_REG_EXT_SENS_DATA_13" 0x56 true ReadOnly;
   mkReg "MPU6050_REG_EXT_SENS_DATA_14" 0x57 true ReadOnly;
   mkReg "MPU6050_REG_EXT_SENS_DATA_15" 0x58 true ReadOnly;
   mkReg "MPU6050_REG_EXT_SENS_DATA_16" 0x59 true ReadOnly;
   mkReg "MPU6050_REG_EXT_SENS_DATA_17" 0x5A true ReadOnly;
   mkReg "MPU6050_REG_EXT_SENS_DATA_18" 0x5B true ReadOnly;
   mkReg "MPU6050_REG_EXT_SENS_DATA_19" 0x5C true ReadOnly;
   mkReg "MPU6050_REG_EXT_SENS_DATA_20" 0x5D true ReadOnly;
   mkReg "MPU6050_REG_EXT_SENS_DATA_21" 0x5E true ReadOnly;
   mkReg "MPU6050_REG_EXT_SENS_DATA_22" 0x5F true ReadOnly;
   mkReg "MPU6050_REG_EXT_SENS_DATA_23" 0x60 true ReadOnly;
   mkReg "MPU6050_REG_MOT_DETECT_STATUS" 0x61 false ReadOnly;
   mkReg "MPU6050_REG_I2C_SLV0_DO" 0x63 true ReadWrite;
   mkReg "MPU6050_REG_I2C_SLV1_DO" 0x64 true ReadWrite;
   mkReg "MPU6050_REG_I2C_SLV2_DO" 0x65 true ReadWrite;
   mkReg "MPU6050_REG_I2C_SLV3_DO" 0x66 true ReadWrite;
   mkReg "MPU6050_REG_I2C_MST_DELAY_CTRL" 0x67 true ReadWrite;
   mkReg "MPU6050_REG_SIGNAL_PATH_RESET" 0x68 true ReadWrite;
   mkReg "MPU6050_REG_MOT_DETECT_CTRL" 0x69 true ReadWrite;
   mkReg "MPU6050_REG_USER_CTRL" 0x6A true ReadWrite;
   mkReg "MPU6050_REG_PWR_MGMT_1" 0x6B true ReadWrite;
   mkReg "MPU6050_REG_PWR_MGMT_2" 0x6C true ReadWrite;
   mkReg "MPU6050_REG_BANK_SEL" 0x6D false ReadWrite;
   mkReg "MPU6050_REG_MEM_START_ADDR" 0x6E false ReadWrite;
   mkReg "MPU6050_REG_MEM_R_W" 0x6F false ReadWrite;
   mkReg "MPU6050_REG_DMP_CFG_1" 0x70 false ReadWrite;
   mkReg "MPU6050_REG_DMP_CFG_2" 0x71 false ReadWrite;
   mkReg "MPU6050_REG_FIFO_COUNTH" 0x72 true ReadWrite;
   mkReg "MPU6050_REG_FIFO_COUNTL" 0x73 true ReadWrite;
   mkReg "MPU6050_REG_FIFO_R_W" 0x74 true ReadWrite;
   mkReg "MPU6050_REG_WHO_AM_I" 0x75 true ReadOnly].

(** The type of a structure member; both are one byte wide. *)
Inductive ctype : Type := uint8_t | int8_t.

(** One member of a register structure: its [const] qualifier, type and
    name, and the address its comment gives. *)
Record member : Type := mkMember {
  is_const : bool;
  member_type : ctype;
  member_name : string;
  member_comment : Z
}.


(** The MPU6050 configuration registers. *)
Definition mpu6050_confreg_t : list member :=
  [mkMember false uint8_t "SMPLRT_DIV" 0x19;
   mkMember false uint8_t "CONFIG" 0x1A;
   mkMember false uint8_t "GYRO_CONFIG" 0x1B;
   mkMember false uint8_t "ACCEL_CONFIG" 0x1C;
   mkMember false uint8_t "FIFO_EN" 0x23;
   mkMember false uint8_t "I2C_MST_CTRL" 0x24;
   mkMember false uint8_t "I2C_SLV0_ADDR" 0x25;
   mkMember false uint8_t "I2C_SLV0_REG" 0x26;
   mkMember false uint8_t "I2C_SLV0_CTRL" 0x27;
   mkMember false uint8_t "I2C_SLV1_ADDR" 0x28;
   mkMember false uint8_t "I2C_SLV1_REG" 0x29;
   mkMember false uint8_t "I2C_SLV1_CTRL" 0x2A;
   mkMember false uint8_t "I2C_SLV2_ADDR" 0x2B;
   mkMember false uint8_t "I2C_SLV2_REG" 0x2C;
   mkMember false uint8_t "I2C_SLV2_CTRL" 0x2D;
   mkMember false uint8_t "I2C_SLV3_ADDR" 0x2E;
   mkMember false uint8_t "I2C_SLV3_REG" 0x2F;
   mkMember false uint8_t "I2C_SLV3_CTRL" 0x30;
   mkMember false uint8_t "I2C_SLV4_ADDR" 0x31;
   mkMember false uint8_t "I2C_SLV4_REG" 0x32;
   mkMember false uint8_t "I2C_SLV4_DO" 0x33;
   mkMember false uint8_t "I2C_SLV4_CTRL" 0x34;
   mkMember true uint8_t "I2C_SLV4_DI" 0x35;
   mkMember true uint8_t "I2C_MST_STATUS" 0x36;
   mkMember false uint8_t "INT_PIN_CFG" 0x37;
   mkMember false uint8_t "INT_ENABLE" 0x38;
   mkMember false uint8_t "I2C_SLV0_DO" 0x63;
   mkMember false uint8_t "I2C_SLV1_DO" 0x64;
   mkMember false uint8_t "I2C_SLV2_DO" 0x65;
   mkMember false uint8_t "I2C_SLV3_DO" 0x66;
   mkMember false uint8_t "I2C_MST_DELAY_CTRL" 0x67;
   mkMember false uint8_t "SIGNAL_PATH_RESET" 0x68;
   mkMember false uint8_t "MOT_DETECT_CTRL" 0x69;
   mkMember false uint8_t "USER_CTRL" 0x6A;
   mkMember false uint8_t "PWR_MGMT_1" 0x6B;
   mkMember false uint8_t "PWR_MGMT_2" 0x6C;
   mkMember false uint8_t "FIFO_COUNTH" 0x72;
   mkMember false uint8_t "FIFO_COUNTL" 0x73;
   mkMember false uint8_t "FIFO_R_W" 0x74;
   mkMember true uint8_t "WHO_AM_I" 0x75].



(** Every member is one byte and a structure of bytes has no padding: its
    size is the number of its members and the offset of a member is its
    position. *)
Definition sizeof (s : list member) : Z := Z.of_nat (List.length s).

(** The table entry of a macro. *)
Definition register_named (n : string) : option reg_def :=
  find (fun r => String.eqb (reg_name r) n) registers.

(** The register a member stands for, the one whose macro carries the
    member's name, and its address (-1 when there is none). *)
Definition register_of (m : member) : option reg_def :=
  register_named ("MPU6050_REG_" ++ member_name m).

Definition address_of (m : member) : Z :=
  match register_of m with
  | Some r => reg_addr r
  | None => -1
  end.

(** The address of a macro (-1 when the table has none of that name). *)
Definition addr (n : string) : Z :=
  match register_named n with
  | Some r => reg_addr r
  | None => -1
  end.

(** Whether a list of addresses is strictly ascending. *)
Fixpoint ascending (l : list Z) : bool :=
  match l with
  | a :: (b :: _) as t => (a <? b)%Z && ascending t
  | _ => true
  end.


(** A bus on which every register of every slave holds its own address. *)
Definition numbered : bus := mkBus (fun _ r => r) [].


End MPU6050.

(** The addresses of the MMA8451Q data sheet as wired on the FRDM-KL25Z
    board; the general theorems are instantiated at them. *)
Module Datasheet.
Definition I2CADDR : Z := 0x1D.
Definition REG_STATUS : Z := 0x00.
Definition REG_XYZ_DATA_CFG : Z := 0x0E.
Definition REG_CTRL_REG1 : Z := 0x2A.
Definition REG_CTRL_REG2 : Z := 0x2B.
Definition REG_CTRL_REG3 : Z := 0x2C.
Definition REG_CTRL_REG4 : Z := 0x2D.
Definition REG_CTRL_REG5 : Z := 0x2E.

(** A bus on which every register of every slave holds [v]. *)
Definition filled (v : Z) : bus := mkBus (fun _ _ => v) [].

(** A bus on which every slave holds the given bytes in its registers 0, 1,
    2, ... and zero in the others. *)
Definition holding (bytes : list Z) : bus :=
  mkBus (fun _ r => if r <? 0 then 0 else nth (Z.to_nat r) bytes 0) [].
End Datasheet.

Section MMA8451Q.

(** The slave address and the register addresses are macros of mma8451q.h,
    which is not among the sources: the driver is verified for every
    assignment of them. *)
Variable MMA8451Q_I2CADDR : Z.
Variable MMA8451Q_REG_STATUS : Z.
Variable MMA8451Q_REG_SYSMOD : Z.
Variable MMA8451Q_REG_PL_CFG : Z.
Variable MMA8451Q_REG_XZY_DATA_CFG : Z.
Variable MMA8451Q_REG_CTRL_REG1 : Z.
Variable MMA8451Q_REG_CTRL_REG2 : Z.
Variable MMA8451Q_REG_CTRL_REG3 : Z.
Variable MMA8451Q_REG_CTRL_REG4 : Z.
Variable MMA8451Q_REG_CTRL_REG5 : Z.

(** [MMA8451Q_ReadAcceleration14bitNoFifo]: [data] is the sample the pointer
    refers to on entry, the result is the sample it refers to on return. *)
Definition MMA8451Q_ReadAcceleration14bitNoFifo (host : byte_order)
    (data : mma8451q_acc_t) : io mma8451q_acc_t :=
  (* in 14bit mode there are 7 registers to be read (1 status + 6 data) *)
  let registerCount := 7 in
  (* read the register data *)
  buffer <- I2C_ReadRegisters MMA8451Q_I2CADDR MMA8451Q_REG_STATUS registerCount ;;
  let data := overlay_from_status host buffer data in
  (* apply fix for endianness *)
  let data :=
    if endianCorrectionRequired host FROM_BIG_ENDIAN
    then mkAcc (status data)
               (i16 (ENDIANSWAP_16 (x data)))
               (i16 (ENDIANSWAP_16 (y data)))
               (i16 (ENDIANSWAP_16 (z data)))
    else data in
  (* correct the 14bit layout to 16bit layout *)
  ret (mkAcc (status data)
             (i16 (Z.shiftr (x data) 2))
             (i16 (Z.shiftr (y data) 2))
             (i16 (Z.shiftr (z data) 2))).

(** The [value] and [mask] locals of [MMA8451Q_SetDataRate]. *)
Definition SetDataRate_value (datarate lownoise : Z) : Z :=
  u8 (Z.lor (Z.land (shl datarate CTRL_REG1_DR_SHIFT) CTRL_REG1_DR_MASK)
            (Z.land (shl lownoise CTRL_REG1_LNOISE_SHIFT) CTRL_REG1_LNOISE_MASK)).

Definition SetDataRate_mask : Z :=
  u8 (Z.lnot (Z.lor CTRL_REG1_DR_MASK CTRL_REG1_LNOISE_MASK)).

Definition MMA8451Q_SetDataRate (datarate lownoise : Z) : io unit :=
  let value := SetDataRate_value datarate lownoise in
  let mask := SetDataRate_mask in
  I2C_ModifyRegister MMA8451Q_I2CADDR MMA8451Q_REG_CTRL_REG1 mask value.



(** The [value] and [mask] locals of [MMA8451Q_SetOversampling]. *)
Definition SetOversampling_value (oversampling : Z) : Z :=
  u8 (Z.land (shl oversampling CTRL_REG2_MODS_SHIFT) CTRL_REG2_MODS_MASK).

Definition SetOversampling_mask : Z := u8 (Z.lnot CTRL_REG2_MODS_MASK).

Definition MMA8451Q_SetOversampling (oversampling : Z) : io unit :=
  let value := SetOversampling_value oversampling in
  let mask := SetOversampling_mask in
  I2C_ModifyRegister MMA8451Q_I2CADDR MMA8451Q_REG_CTRL_REG2 mask value.

(** The byte [MMA8451Q_SetSensitivity] passes to [I2C_WriteRegister]. *)
Definition SetSensitivity_value (sensitivity highpassEnabled : Z) : Z :=
  u8 (Z.lor (Z.land sensitivity 0x03) (Z.land (shl highpassEnabled 4) 0x10)).

Definition MMA8451Q_SetSensitivity (sensitivity highpassEnabled : Z) : io unit :=
  I2C_WriteRegister MMA8451Q_I2CADDR MMA8451Q_REG_XZY_DATA_CFG
                    (SetSensitivity_value sensitivity highpassEnabled).

(** The [value] and [mask] locals of [MMA8451Q_SetInterruptMode]. *)
Definition SetInterruptMode_value (mode polarity : Z) : Z :=
  u8 (Z.lor (Z.land (shl mode CTRL_REG3_PPOD_SHIFT) CTRL_REG3_PPOD_MASK)
            (Z.land (shl polarity CTRL_REG3_IPOL_SHIFT) CTRL_REG3_IPOL_MASK)).

Definition SetInterruptMode_mask : Z :=
  u8 (Z.lnot (Z.lor CTRL_REG3_IPOL_MASK CTRL_REG3_PPOD_MASK)).

Definition MMA8451Q_SetInterruptMode (mode polarity : Z) : io unit :=
  let value := SetInterruptMode_value mode polarity in
  let mask := SetInterruptMode_mask in
  I2C_ModifyRegister MMA8451Q_I2CADDR MMA8451Q_REG_CTRL_REG3 mask value.

Definition MMA8451Q_ConfigureInterrupt (irq : Z) (pin : mma8451q_intpin_t)
  : io unit :=
  (* interrupt pin. Assume that the interrupt 1 should be set *)
  let clearMask := I2C_MOD_NO_AND_MASK in
  let setMask := u8 (shl 1 irq) in
  (* if pin 2 should be used, revert *)
  let '(clearMask, setMask) :=
    if intpin_eqb MMA8451Q_INTPIN_INT2 pin
    then (u8 (Z.lnot (shl 1 irq)), I2C_MOD_NO_OR_MASK)
    else (clearMask, setMask) in
  I2C_ModifyRegister MMA8451Q_I2CADDR MMA8451Q_REG_CTRL_REG5 clearMask setMask ;;
  (* interrupt enable *)
  I2C_ModifyRegister MMA8451Q_I2CADDR MMA8451Q_REG_CTRL_REG4
                     I2C_MOD_NO_AND_MASK (u8 (shl 1 irq)).

Definition MMA8451Q_ClearInterruptConfiguration : io unit :=
  I2C_WriteRegister MMA8451Q_I2CADDR MMA8451Q_REG_CTRL_REG4 0 ;;
  I2C_WriteRegister MMA8451Q_I2CADDR MMA8451Q_REG_CTRL_REG5 0.

(** [MMA8451Q_FetchConfiguration]: the pointer is [None] when it is null and
    [Some c] when it refers to an aggregate holding [c]; a call that returns
    yields the aggregate as it is afterwards and the bus. *)
Definition MMA8451Q_FetchConfiguration
    (configuration : option mma8451q_confreg_t) (b : bus)
  : outcome (mma8451q_confreg_t * bus) :=
  match configuration with
  | None => AssertionFailed
  | Some c => Returned (c, b)
  end.

Definition MMA8451Q_StoreConfiguration
    (configuration : option mma8451q_confreg_t) (b : bus)
  : outcome (mma8451q_confreg_t * bus) :=
  match configuration with
  | None => AssertionFailed
  | Some c => Returned (c, b)
  end.

(** What the specification asks of a fetched aggregate: every field holds the
    device's content of its register. *)
Definition reflects_device (c : mma8451q_confreg_t) (b : bus) : Prop :=
  Forall (fun f => field_value f = u8 (regs b MMA8451Q_I2CADDR (field_register f))) c.


(** ** Vocabulary of the statements *)

(** The bits each operation owns in its register: the masks the source
    declares for CTRL_REG1..3, and the two fields [MMA8451Q_SetSensitivity]
    masks its arguments with. *)
Definition SetDataRate_owned : Z := Z.lor CTRL_REG1_DR_MASK CTRL_REG1_LNOISE_MASK.
Definition SetOversampling_owned : Z := CTRL_REG2_MODS_MASK.
Definition SetInterruptMode_owned : Z := Z.lor CTRL_REG3_IPOL_MASK CTRL_REG3_PPOD_MASK.
Definition SetSensitivity_owned : Z := Z.lor 0x03 0x10.

(** The mask of a field of [w] bits whose lowest bit is bit [sh], and the
    content of the field of mask [m] and shift [sh] in the byte [reg]. *)
Definition field_mask (w sh : Z) : Z := Z.shiftl (Z.ones w) sh.
Definition field (reg m sh : Z) : Z := Z.shiftr (Z.land reg m) sh.

(** The byte the burst read of [MMA8451Q_ReadAcceleration14bitNoFifo]
    delivers at offset [k] from the status register. *)
Definition wire (b : bus) (k : Z) : Z :=
  u8 (regs b MMA8451Q_I2CADDR (MMA8451Q_REG_STATUS + k)).

(** One axis of the sample before the conversion back to [int16_t], from its
    two bytes in memory. *)
Definition decoded_axis (host : byte_order) (b0 b1 : Z) : Z :=
  Z.shiftr (if endianCorrectionRequired host FROM_BIG_ENDIAN
            then i16 (ENDIANSWAP_16 (load_int16 host b0 b1))
            else load_int16 host b0 b1) 2.

(** * Properties *)

(** ** Bits of the fixed-width conversions *)

Arguments u8 : simpl never.
Arguments u16 : simpl never.
Arguments i16 : simpl never.
Arguments i32 : simpl never.
Arguments shl : simpl never.

Lemma u8_range (a : Z) : is_byte (u8 a).
Proof. unfold is_byte, u8. change 256 with (2 ^ 8). apply Z.mod_pos_bound. lia. Qed.

Lemma u8_of_byte (a : Z) : is_byte a -> u8 a = a.
Proof. unfold is_byte, u8. intros H. apply Z.mod_small. simpl; lia. Qed.

Lemma testbit_u8 (a i : Z) : Z.testbit (u8 a) i = (i <? 8) && Z.testbit a i.
Proof. unfold u8. apply Z.testbit_mod_pow2. lia. Qed.

Lemma testbit_byte_high (a i : Z) : is_byte a -> 8 <= i -> Z.testbit a i = false.
Proof.
  intros Ha Hi. rewrite <- (u8_of_byte a Ha), testbit_u8.
  destruct (Z.ltb_spec i 8); [lia | reflexivity].
Qed.

Lemma i16_range (a : Z) : - 2 ^ 15 <= i16 a < 2 ^ 15.
Proof.
  unfold i16. pose proof (Z.mod_pos_bound (a + 2 ^ 15) (2 ^ 16) ltac:(lia)). lia.
Qed.

Lemma i16_of_small (a : Z) : - 2 ^ 15 <= a < 2 ^ 15 -> i16 a = a.
Proof. intros H. unfold i16. rewrite Z.mod_small; lia. Qed.

Lemma i32_mod (a : Z) : i32 a mod 2 ^ 32 = a mod 2 ^ 32.
Proof.
  unfold i32.
  rewrite Zminus_mod, Zmod_mod, <- Zminus_mod.
  f_equal. lia.
Qed.

Lemma testbit_i32 (a i : Z) : i < 32 -> Z.testbit (i32 a) i = Z.testbit a i.
Proof.
  intros Hi. destruct (Z.lt_ge_cases i 0) as [Hn | Hn].
  - now rewrite !Z.testbit_neg_r.
  - rewrite <- (Z.mod_pow2_bits_low (i32 a) 32 i) by lia.
    rewrite i32_mod. apply Z.mod_pow2_bits_low. lia.
Qed.

Lemma u8_i32 (a : Z) : u8 (i32 a) = u8 a.
Proof.
  apply Z.bits_inj'. intros i Hi. rewrite !testbit_u8.
  destruct (Z.ltb_spec i 8); [ | reflexivity ].
  simpl. apply testbit_i32. lia.
Qed.

(** Bits of a promoted shift that survive the conversion to [uint8_t]. *)
Lemma testbit_u8_shl (a n i : Z) :
  0 <= i -> Z.testbit (u8 (shl a n)) i = (i <? 8) && Z.testbit a (i - n).
Proof.
  intros Hi. unfold shl. rewrite u8_i32, testbit_u8, Z.shiftl_spec by lia.
  reflexivity.
Qed.

(** The single bit [1 << irq], seen through the conversion to [uint8_t]. *)
Lemma testbit_irq_bit (irq i : Z) :
  0 <= irq -> Z.testbit (u8 (shl 1 irq)) i = (i <? 8) && (irq =? i).
Proof.
  intros Hq. destruct (Z.lt_ge_cases i 0) as [Hn | Hn].
  - rewrite Z.testbit_neg_r by lia.
    destruct (Z.eqb_spec irq i); [lia | now rewrite andb_false_r].
  - rewrite testbit_u8_shl by lia. f_equal.
    destruct (Z.eqb_spec irq i) as [-> | Hne].
    + now rewrite Z.sub_diag.
    + destruct (Z.lt_ge_cases (i - irq) 0).
      * now rewrite Z.testbit_neg_r.
      * change 1 with (2 ^ 0). rewrite Z.pow2_bits_eqb by lia.
        destruct (Z.eqb_spec 0 (i - irq)); [lia | reflexivity].
Qed.

Lemma testbit_irq_clear (irq i : Z) :
  0 <= irq -> 0 <= i ->
  Z.testbit (u8 (Z.lnot (shl 1 irq))) i = (i <? 8) && negb (irq =? i).
Proof.
  intros Hq Hi. rewrite testbit_u8, Z.lnot_spec by lia.
  destruct (Z.ltb_spec i 8) as [Hlt | Hge]; [ | reflexivity ].
  simpl. f_equal.
  pose proof (testbit_irq_bit irq i Hq) as H.
  rewrite testbit_u8 in H.
  destruct (Z.ltb_spec i 8); [ | lia ]. exact H.
Qed.

Lemma land_u8_no_and_mask (a : Z) : Z.land (u8 a) I2C_MOD_NO_AND_MASK = u8 a.
Proof.
  change I2C_MOD_NO_AND_MASK with (Z.ones 8).
  rewrite Z.land_ones by lia. unfold u8. apply Zmod_mod.
Qed.

(** Rewrites a bit of a bitwise expression into a boolean expression. *)
Ltac bits :=
  repeat first
    [ rewrite testbit_u8
    | rewrite Z.lor_spec
    | rewrite Z.land_spec
    | rewrite Z.lnot_spec by lia
    | rewrite Z.bits_0 ].

(** ** The bus after a transaction *)

Lemma exec_bind {A B : Type} (m : io A) (k : A -> io B) (b : bus) :
  exec (bind m k) b = exec (k (eval m b)) (exec m b).
Proof. unfold exec, eval, bind. destruct (m b). reflexivity. Qed.

Lemma eval_bind {A B : Type} (m : io A) (k : A -> io B) (b : bus) :
  eval (bind m k) b = eval (k (eval m b)) (exec m b).
Proof. unfold exec, eval, bind. destruct (m b). reflexivity. Qed.

Lemma store_same (f : Z -> Z -> Z) (s r v : Z) : store f s r v s r = v.
Proof. unfold store. now rewrite !Z.eqb_refl. Qed.

Lemma store_other (f : Z -> Z -> Z) (s r v s' r' : Z) :
  s' <> s \/ r' <> r -> store f s r v s' r' = f s' r'.
Proof.
  unfold store. intros H.
  destruct (Z.eqb_spec s' s), (Z.eqb_spec r' r); simpl; try reflexivity.
  destruct H; contradiction.
Qed.

Lemma regs_modify (s r andMask orMask : Z) (b : bus) :
  regs (exec (I2C_ModifyRegister s r andMask orMask) b) =
  store (regs b) s r (modified (regs b s r) andMask orMask).
Proof. reflexivity. Qed.

Lemma log_modify (s r andMask orMask : Z) (b : bus) :
  log (exec (I2C_ModifyRegister s r andMask orMask) b) =
  log b ++ [ModifyRegister s r andMask orMask].
Proof. reflexivity. Qed.

Lemma regs_write (s r v : Z) (b : bus) :
  regs (exec (I2C_WriteRegister s r v) b) = store (regs b) s r (u8 v).
Proof. reflexivity. Qed.

Lemma log_write (s r v : Z) (b : bus) :
  log (exec (I2C_WriteRegister s r v) b) = log b ++ [WriteRegister s r v].
Proof. reflexivity. Qed.




(** ** Read-modify-write on one register *)

Lemma testbit_modified (current andMask orMask i : Z) :
  Z.testbit (modified current andMask orMask) i =
  (i <? 8) && (Z.testbit current i && Z.testbit andMask i || Z.testbit orMask i).
Proof. unfold modified. bits. btauto. Qed.

(** A mask pair that owns the bits of [owned] only: the AND mask keeps every
    other bit and the OR mask sets none of them. *)
Lemma modified_outside (owned current orMask i : Z) :
  is_byte current ->
  Z.land orMask (Z.lnot owned) = 0 ->
  Z.testbit owned i = false ->
  Z.testbit (modified current (u8 (Z.lnot owned)) orMask) i = Z.testbit current i.
Proof.
  intros Hc Hv Ho.
  destruct (Z.lt_ge_cases i 0) as [Hn | Hn]; [ now rewrite !Z.testbit_neg_r | ].
  assert (Hvi : Z.testbit orMask i = false).
  { apply (f_equal (fun v => Z.testbit v i)) in Hv.
    rewrite Z.land_spec, Z.lnot_spec, Ho, Z.bits_0 in Hv by lia.
    simpl in Hv. now rewrite andb_true_r in Hv. }
  rewrite testbit_modified. bits. rewrite Ho, Hvi.
  destruct (Z.ltb_spec i 8) as [Hlt | Hge].
  - simpl. btauto.
  - simpl. symmetry. now apply testbit_byte_high.
Qed.

(** A second read-modify-write with the same masks changes nothing. *)
Lemma modified_idempotent (current andMask orMask : Z) :
  modified (modified current andMask orMask) andMask orMask =
  modified current andMask orMask.
Proof.
  apply Z.bits_inj'. intros i _. rewrite !testbit_modified. btauto.
Qed.

(** ** The values the bit-field operations compute *)

Lemma SetDataRate_value_owned (datarate lownoise : Z) :
  Z.land (SetDataRate_value datarate lownoise) (Z.lnot SetDataRate_owned) = 0.
Proof.
  apply Z.bits_inj'. intros i Hi.
  unfold SetDataRate_value, SetDataRate_owned. bits. btauto.
Qed.

Lemma SetOversampling_value_owned (oversampling : Z) :
  Z.land (SetOversampling_value oversampling) (Z.lnot SetOversampling_owned) = 0.
Proof.
  apply Z.bits_inj'. intros i Hi.
  unfold SetOversampling_value, SetOversampling_owned. bits. btauto.
Qed.

Lemma SetInterruptMode_value_owned (mode polarity : Z) :
  Z.land (SetInterruptMode_value mode polarity) (Z.lnot SetInterruptMode_owned) = 0.
Proof.
  apply Z.bits_inj'. intros i Hi.
  unfold SetInterruptMode_value, SetInterruptMode_owned. bits. btauto.
Qed.

Lemma SetSensitivity_value_owned (sensitivity highpassEnabled : Z) :
  Z.land (SetSensitivity_value sensitivity highpassEnabled)
         (Z.lnot SetSensitivity_owned) = 0.
Proof.
  apply Z.bits_inj'. intros i Hi.
  unfold SetSensitivity_value, SetSensitivity_owned. bits. btauto.
Qed.

(** The [mask] local of each operation is the complement of the owned bits,
    as a byte. *)
Lemma SetDataRate_mask_eq : SetDataRate_mask = 0xC3.
Proof. reflexivity. Qed.

Lemma SetOversampling_mask_eq : SetOversampling_mask = 0xC7.
Proof. reflexivity. Qed.

Lemma SetInterruptMode_mask_eq : SetInterruptMode_mask = 0xFC.
Proof. reflexivity. Qed.

(** ** What the operations leave in their registers *)

Lemma SetDataRate_regs (datarate lownoise : Z) (b : bus) :
  regs (exec (MMA8451Q_SetDataRate datarate lownoise) b)
       MMA8451Q_I2CADDR MMA8451Q_REG_CTRL_REG1 =
  modified (regs b MMA8451Q_I2CADDR MMA8451Q_REG_CTRL_REG1)
           (u8 (Z.lnot SetDataRate_owned)) (SetDataRate_value datarate lownoise).
Proof. unfold MMA8451Q_SetDataRate. rewrite regs_modify. apply store_same. Qed.

Lemma SetOversampling_regs (oversampling : Z) (b : bus) :
  regs (exec (MMA8451Q_SetOversampling oversampling) b)
       MMA8451Q_I2CADDR MMA8451Q_REG_CTRL_REG2 =
  modified (regs b MMA8451Q_I2CADDR MMA8451Q_REG_CTRL_REG2)
           (u8 (Z.lnot SetOversampling_owned)) (SetOversampling_value oversampling).
Proof. unfold MMA8451Q_SetOversampling. rewrite regs_modify. apply store_same. Qed.

Lemma SetInterruptMode_regs (mode polarity : Z) (b : bus) :
  regs (exec (MMA8451Q_SetInterruptMode mode polarity) b)
       MMA8451Q_I2CADDR MMA8451Q_REG_CTRL_REG3 =
  modified (regs b MMA8451Q_I2CADDR MMA8451Q_REG_CTRL_REG3)
           (u8 (Z.lnot SetInterruptMode_owned)) (SetInterruptMode_value mode polarity).
Proof. unfold MMA8451Q_SetInterruptMode. rewrite regs_modify. apply store_same. Qed.

Lemma SetSensitivity_regs (sensitivity highpassEnabled : Z) (b : bus) :
  regs (exec (MMA8451Q_SetSensitivity sensitivity highpassEnabled) b)
       MMA8451Q_I2CADDR MMA8451Q_REG_XZY_DATA_CFG =
  SetSensitivity_value sensitivity highpassEnabled.
Proof.
  unfold MMA8451Q_SetSensitivity. rewrite regs_write, store_same.
  apply u8_of_byte, u8_range.
Qed.

(** C1, as amended: the three operations that issue a read-modify-write (set
    data rate / low-noise, set oversampling, set interrupt mode / polarity)
    leave every bit of their register outside the bits they own as it was,
    whatever byte the register held; set sensitivity / high-pass enable
    writes the whole register instead, which afterwards holds exactly the
    computed value, every bit outside the two fields being zero. *)
Theorem bit_field_frame (b : bus) (i : Z) :
  bytes_only b ->
  (forall datarate lownoise,
      Z.testbit SetDataRate_owned i = false ->
      Z.testbit (regs (exec (MMA8451Q_SetDataRate datarate lownoise) b)
                      MMA8451Q_I2CADDR MMA8451Q_REG_CTRL_REG1) i =
      Z.testbit (regs b MMA8451Q_I2CADDR MMA8451Q_REG_CTRL_REG1) i) /\
  (forall oversampling,
      Z.testbit SetOversampling_owned i = false ->
      Z.testbit (regs (exec (MMA8451Q_SetOversampling oversampling) b)
                      MMA8451Q_I2CADDR MMA8451Q_REG_CTRL_REG2) i =
      Z.testbit (regs b MMA8451Q_I2CADDR MMA8451Q_REG_CTRL_REG2) i) /\
  (forall mode polarity,
      Z.testbit SetInterruptMode_owned i = false ->
      Z.testbit (regs (exec (MMA8451Q_SetInterruptMode mode polarity) b)
                      MMA8451Q_I2CADDR MMA8451Q_REG_CTRL_REG3) i =
      Z.testbit (regs b MMA8451Q_I2CADDR MMA8451Q_REG_CTRL_REG3) i) /\
  (forall sensitivity highpassEnabled,
      regs (exec (MMA8451Q_SetSensitivity sensitivity highpassEnabled) b)
           MMA8451Q_I2CADDR MMA8451Q_REG_XZY_DATA_CFG =
      SetSensitivity_value sensitivity highpassEnabled /\
      (Z.testbit SetSensitivity_owned i = false ->
       Z.testbit (regs (exec (MMA8451Q_SetSensitivity sensitivity highpassEnabled) b)
                       MMA8451Q_I2CADDR MMA8451Q_REG_XZY_DATA_CFG) i = false)).
Proof.
  intros Hb. repeat split.
  - intros d l Ho. rewrite SetDataRate_regs.
    apply modified_outside; auto using SetDataRate_value_owned.
  - intros o Ho. rewrite SetOversampling_regs.
    apply modified_outside; auto using SetOversampling_value_owned.
  - intros m p Ho. rewrite SetInterruptMode_regs.
    apply modified_outside; auto using SetInterruptMode_value_owned.
  - apply SetSensitivity_regs.
  - intros Ho. rewrite SetSensitivity_regs.
    destruct (Z.lt_ge_cases i 0) as [Hn | Hn]; [ now rewrite Z.testbit_neg_r | ].
    pose proof (SetSensitivity_value_owned sensitivity highpassEnabled) as Hv.
    apply (f_equal (fun v => Z.testbit v i)) in Hv.
    rewrite Z.land_spec, Z.lnot_spec, Ho, Z.bits_0 in Hv by lia.
    simpl in Hv. now rewrite andb_true_r in Hv.
Qed.

(** C9: whatever the arguments are, each read-modify-write operation hands
    the provider its complemented mask and a value whose set bits all lie in
    the field the operation owns: the value ANDed with the complement of the
    owned bits (as an integer, and as the [uint8_t] mask local) is zero. *)
Theorem value_within_owned_field (b : bus) :
  (forall datarate lownoise,
      log (exec (MMA8451Q_SetDataRate datarate lownoise) b) =
      log b ++ [ModifyRegister MMA8451Q_I2CADDR MMA8451Q_REG_CTRL_REG1
                               SetDataRate_mask
                               (SetDataRate_value datarate lownoise)] /\
      Z.land (SetDataRate_value datarate lownoise) (Z.lnot SetDataRate_owned) = 0 /\
      Z.land (SetDataRate_value datarate lownoise) SetDataRate_mask = 0) /\
  (forall oversampling,
      log (exec (MMA8451Q_SetOversampling oversampling) b) =
      log b ++ [ModifyRegister MMA8451Q_I2CADDR MMA8451Q_REG_CTRL_REG2
                               SetOversampling_mask
                               (SetOversampling_value oversampling)] /\
      Z.land (SetOversampling_value oversampling) (Z.lnot SetOversampling_owned) = 0 /\
      Z.land (SetOversampling_value oversampling) SetOversampling_mask = 0) /\
  (forall mode polarity,
      log (exec (MMA8451Q_SetInterruptMode mode polarity) b) =
      log b ++ [ModifyRegister MMA8451Q_I2CADDR MMA8451Q_REG_CTRL_REG3
                               SetInterruptMode_mask
                               (SetInterruptMode_value mode polarity)] /\
      Z.land (SetInterruptMode_value mode polarity) (Z.lnot SetInterruptMode_owned) = 0 /\
      Z.land (SetInterruptMode_value mode polarity) SetInterruptMode_mask = 0).
Proof.
  repeat split.
  - apply SetDataRate_value_owned.
  - apply Z.bits_inj'. intros i Hi.
    unfold SetDataRate_value, SetDataRate_mask. bits. btauto.
  - apply SetOversampling_value_owned.
  - apply Z.bits_inj'. intros i Hi.
    unfold SetOversampling_value, SetOversampling_mask. bits. btauto.
  - apply SetInterruptMode_value_owned.
  - apply Z.bits_inj'. intros i Hi.
    unfold SetInterruptMode_value, SetInterruptMode_mask. bits. btauto.
Qed.

(** ** Idempotence *)

(** Decides every comparison of a slave or register address in the goal. *)
Ltac split_addresses :=
  repeat match goal with
         | |- context [Z.eqb ?a ?b] =>
             destruct (Z.eqb_spec a b); subst; simpl; try contradiction
         end.

(** Equality of two bytes built by read-modify-writes, bit by bit. *)
Ltac modified_bits :=
  try reflexivity;
  apply Z.bits_inj'; intros ? _; rewrite ?testbit_modified, ?testbit_u8; btauto.

Lemma modify_idempotent (s r andMask orMask : Z) (b : bus) :
  let op := I2C_ModifyRegister s r andMask orMask in
  same_regs (exec op (exec op b)) (exec op b).
Proof.
  intros op s' r'. unfold op. rewrite !regs_modify. unfold store.
  split_addresses; modified_bits.
Qed.

Lemma write_idempotent (s r v : Z) (b : bus) :
  let op := I2C_WriteRegister s r v in
  same_regs (exec op (exec op b)) (exec op b).
Proof.
  intros op s' r'. unfold op. rewrite !regs_write. unfold store.
  split_addresses; reflexivity.
Qed.

(** Two read-modify-writes in a row, on the same register or on two. *)
Lemma modify_pair_idempotent (s r1 a1 o1 r2 a2 o2 : Z) (b : bus) :
  let op := I2C_ModifyRegister s r1 a1 o1 ;; I2C_ModifyRegister s r2 a2 o2 in
  same_regs (exec op (exec op b)) (exec op b).
Proof.
  intros op s' r'. unfold op. rewrite !exec_bind. cbv beta.
  rewrite !regs_modify. unfold store.
  split_addresses; modified_bits.
Qed.

(** C7: every bit-field operation, invoked a second time immediately with the
    same arguments, leaves every register as the first invocation left it. *)
Theorem bit_field_idempotent (b : bus) :
  (forall datarate lownoise,
      let op := MMA8451Q_SetDataRate datarate lownoise in
      same_regs (exec op (exec op b)) (exec op b)) /\
  (forall oversampling,
      let op := MMA8451Q_SetOversampling oversampling in
      same_regs (exec op (exec op b)) (exec op b)) /\
  (forall sensitivity highpassEnabled,
      let op := MMA8451Q_SetSensitivity sensitivity highpassEnabled in
      same_regs (exec op (exec op b)) (exec op b)) /\
  (forall mode polarity,
      let op := MMA8451Q_SetInterruptMode mode polarity in
      same_regs (exec op (exec op b)) (exec op b)) /\
  (forall irq pin,
      let op := MMA8451Q_ConfigureInterrupt irq pin in
      same_regs (exec op (exec op b)) (exec op b)) /\
  (let op := MMA8451Q_ClearInterruptConfiguration in
   same_regs (exec op (exec op b)) (exec op b)).
Proof.
  repeat apply conj; intros.
  - apply modify_idempotent.
  - apply modify_idempotent.
  - apply write_idempotent.
  - apply modify_idempotent.
  - subst op. unfold MMA8451Q_ConfigureInterrupt.
    destruct pin; simpl intpin_eqb; cbv iota beta; apply modify_pair_idempotent.
  - subst op. unfold MMA8451Q_ClearInterruptConfiguration.
    intros s' r'. rewrite !exec_bind. cbv beta. rewrite !regs_write.
    unfold store. split_addresses; reflexivity.
Qed.

(** ** Interrupt routing and clearing *)

Lemma testbit_no_and_mask (i : Z) :
  0 <= i -> Z.testbit I2C_MOD_NO_AND_MASK i = (i <? 8).
Proof.
  intros Hi. change I2C_MOD_NO_AND_MASK with (Z.ones 8).
  apply Z.testbit_ones_nonneg; lia.
Qed.

(** The routing register after [MMA8451Q_ConfigureInterrupt], when the enable
    register is another register. *)
Lemma ConfigureInterrupt_routing (irq : Z) (pin : mma8451q_intpin_t) (b : bus) :
  MMA8451Q_REG_CTRL_REG4 <> MMA8451Q_REG_CTRL_REG5 ->
  regs (exec (MMA8451Q_ConfigureInterrupt irq pin) b)
       MMA8451Q_I2CADDR MMA8451Q_REG_CTRL_REG5 =
  match pin with
  | MMA8451Q_INTPIN_INT1 =>
      modified (regs b MMA8451Q_I2CADDR MMA8451Q_REG_CTRL_REG5)
               I2C_MOD_NO_AND_MASK (u8 (shl 1 irq))
  | MMA8451Q_INTPIN_INT2 =>
      modified (regs b MMA8451Q_I2CADDR MMA8451Q_REG_CTRL_REG5)
               (u8 (Z.lnot (shl 1 irq))) I2C_MOD_NO_OR_MASK
  end.
Proof.
  intros Hne. unfold MMA8451Q_ConfigureInterrupt.
  destruct pin; simpl intpin_eqb; cbv iota beta;
    rewrite exec_bind; cbv beta; rewrite !regs_modify;
    rewrite store_other by (right; congruence); apply store_same.
Qed.

(** C2, as amended: the code routes the other way round.  For every
    interrupt source (a bit 0..7), configuring it with pin 1 selected leaves
    its bit of the routing register CTRL_REG5 set, configuring it with pin 2
    selected leaves that bit clear, and in both cases every other bit of the
    routing register is unchanged. *)
Theorem interrupt_routing (b : bus) (irq : Z) :
  bytes_only b ->
  0 <= irq < 8 ->
  MMA8451Q_REG_CTRL_REG4 <> MMA8451Q_REG_CTRL_REG5 ->
  Z.testbit (regs (exec (MMA8451Q_ConfigureInterrupt irq MMA8451Q_INTPIN_INT1) b)
                  MMA8451Q_I2CADDR MMA8451Q_REG_CTRL_REG5) irq = true /\
  Z.testbit (regs (exec (MMA8451Q_ConfigureInterrupt irq MMA8451Q_INTPIN_INT2) b)
                  MMA8451Q_I2CADDR MMA8451Q_REG_CTRL_REG5) irq = false /\
  (forall pin j,
      j <> irq ->
      Z.testbit (regs (exec (MMA8451Q_ConfigureInterrupt irq pin) b)
                      MMA8451Q_I2CADDR MMA8451Q_REG_CTRL_REG5) j =
      Z.testbit (regs b MMA8451Q_I2CADDR MMA8451Q_REG_CTRL_REG5) j).
Proof.
  intros Hb Hirq Hne. repeat apply conj.
  - rewrite ConfigureInterrupt_routing by exact Hne. cbv iota.
    rewrite testbit_modified, testbit_irq_bit by lia.
    rewrite Z.eqb_refl. destruct (Z.ltb_spec irq 8); [ | lia ].
    simpl. apply orb_true_r.
  - rewrite ConfigureInterrupt_routing by exact Hne. cbv iota.
    rewrite testbit_modified, testbit_irq_clear by lia.
    rewrite Z.eqb_refl. unfold I2C_MOD_NO_OR_MASK. rewrite Z.bits_0.
    simpl. now rewrite !andb_false_r.
  - intros pin j Hj.
    destruct (Z.lt_ge_cases j 0) as [Hn | Hn]; [ now rewrite !Z.testbit_neg_r | ].
    assert (Hq : (irq =? j) = false) by (apply Z.eqb_neq; congruence).
    rewrite ConfigureInterrupt_routing by exact Hne.
    destruct pin; rewrite testbit_modified.
    + rewrite testbit_no_and_mask, testbit_irq_bit, Hq by lia.
      destruct (Z.ltb_spec j 8).
      * simpl. btauto.
      * simpl. symmetry. apply testbit_byte_high; [apply Hb | lia].
    + rewrite testbit_irq_clear by lia. rewrite Hq.
      unfold I2C_MOD_NO_OR_MASK. rewrite Z.bits_0.
      destruct (Z.ltb_spec j 8).
      * simpl. btauto.
      * simpl. symmetry. apply testbit_byte_high; [apply Hb | lia].
Qed.

(** C5: whatever CTRL_REG4 and CTRL_REG5 held, clearing the interrupt
    configuration issues two plain register writes of the literal zero (no
    read-modify-write), and both registers hold zero afterwards. *)
Theorem clear_interrupt_configuration (b : bus) :
  let b' := exec MMA8451Q_ClearInterruptConfiguration b in
  log b' = log b ++ [WriteRegister MMA8451Q_I2CADDR MMA8451Q_REG_CTRL_REG4 0;
                     WriteRegister MMA8451Q_I2CADDR MMA8451Q_REG_CTRL_REG5 0] /\
  regs b' MMA8451Q_I2CADDR MMA8451Q_REG_CTRL_REG4 = 0 /\
  regs b' MMA8451Q_I2CADDR MMA8451Q_REG_CTRL_REG5 = 0.
Proof.
  intros b'. subst b'. unfold MMA8451Q_ClearInterruptConfiguration.
  rewrite exec_bind. cbv beta. repeat apply conj.
  - rewrite !log_write, <- app_assoc. reflexivity.
  - rewrite !regs_write. unfold store. split_addresses; reflexivity.
  - rewrite !regs_write. apply store_same.
Qed.

(** ** Configuration aggregates *)

(** C8: a null aggregate pointer makes [MMA8451Q_FetchConfiguration] and
    [MMA8451Q_StoreConfiguration] fail their assertion, and the assertion
    fails for a null pointer only: with a non-null pointer both return. *)
Theorem null_aggregate_asserts (configuration : option mma8451q_confreg_t) (b : bus) :
  (MMA8451Q_FetchConfiguration configuration b = AssertionFailed <->
   configuration = None) /\
  (MMA8451Q_StoreConfiguration configuration b = AssertionFailed <->
   configuration = None).
Proof.
  destruct configuration as [c | ]; simpl; split; split;
    intros H; try reflexivity; discriminate H.
Qed.

(** [MMA8451Q_FetchConfiguration] is an assertion only: with a non-null
    pointer it returns without a bus transaction and without writing to the
    aggregate. *)
Lemma FetchConfiguration_returns_unchanged (c : mma8451q_confreg_t) (b : bus) :
  MMA8451Q_FetchConfiguration (Some c) b = Returned (c, b).
Proof. reflexivity. Qed.

(** ** The acceleration sample *)

Lemma swap_of_little_endian_load (b0 b1 : Z) :
  is_byte b0 -> is_byte b1 ->
  i16 (ENDIANSWAP_16 (load_int16 LittleEndian b0 b1)) = big_endian_int16 b0 b1.
Proof.
  unfold is_byte, ENDIANSWAP_16, load_int16, big_endian_int16, i16, u16.
  intros H0 H1.
  change (2 ^ 8) with 256. change (2 ^ 15) with 32768. change (2 ^ 16) with 65536.
  Z.div_mod_to_equations. lia.
Qed.

(** An arithmetic shift of an [int16_t] by two bits stays an [int16_t]. *)
Lemma shiftr_2_range (v : Z) :
  - 2 ^ 15 <= v < 2 ^ 15 -> -8192 <= Z.shiftr v 2 <= 8191.
Proof.
  intros H. rewrite Z.shiftr_div_pow2 by lia.
  change (2 ^ 2) with 4. change (2 ^ 15) with 32768 in H.
  Z.div_mod_to_equations. lia.
Qed.

Lemma i16_shiftr_2 (v : Z) :
  - 2 ^ 15 <= v < 2 ^ 15 -> i16 (Z.shiftr v 2) = Z.shiftr v 2.
Proof.
  intros H. apply i16_of_small. pose proof (shiftr_2_range v H).
  change (2 ^ 15) with 32768. lia.
Qed.

Lemma decoded_axis_range (host : byte_order) (b0 b1 : Z) :
  -8192 <= decoded_axis host b0 b1 <= 8191.
Proof.
  unfold decoded_axis. apply shiftr_2_range.
  destruct host; simpl; apply i16_range.
Qed.

Lemma decoded_axis_big_endian (host : byte_order) (b0 b1 : Z) :
  is_byte b0 -> is_byte b1 ->
  decoded_axis host b0 b1 = Z.shiftr (big_endian_int16 b0 b1) 2.
Proof.
  intros H0 H1. unfold decoded_axis. destruct host; cbn [endianCorrectionRequired].
  - now rewrite swap_of_little_endian_load.
  - reflexivity.
Qed.

(** The sample [MMA8451Q_ReadAcceleration14bitNoFifo] returns, in terms of
    the seven bytes of the burst. *)
Lemma ReadAcceleration_eval (host : byte_order) (data : mma8451q_acc_t) (b : bus) :
  eval (MMA8451Q_ReadAcceleration14bitNoFifo host data) b =
  mkAcc (wire b 0)
        (decoded_axis host (wire b 1) (wire b 2))
        (decoded_axis host (wire b 3) (wire b 4))
        (decoded_axis host (wire b 5) (wire b 6)).
Proof.
  unfold MMA8451Q_ReadAcceleration14bitNoFifo. rewrite eval_bind.
  unfold I2C_ReadRegisters at 1. unfold eval at 2. cbn [fst].
  change (Z.to_nat 7) with 7%nat. cbn [seq map overlay_from_status Z.of_nat].
  change (Z.pos (Pos.of_succ_nat 0)) with 1.
  destruct host; cbn -[i16 ENDIANSWAP_16 load_int16 Z.shiftr];
    unfold eval, ret; cbn [fst];
    rewrite !i16_shiftr_2 by (try apply i16_range; destruct host; apply i16_range);
    reflexivity.
Qed.

Lemma shiftr_2_sign (v : Z) : Z.shiftr v 2 < 0 <-> v < 0.
Proof. apply Z.shiftr_neg. Qed.

(** C4: the decoder exchanges the two bytes of each axis word exactly when
    the host's byte order differs from the big-endian order of the wire, and
    then shifts each signed axis value right by two bits, arithmetically: on
    every host each axis is the signed big-endian wire word shifted right by
    two, with its sign.  In particular the wire sample X=0x1234, Y=0xFFF0,
    Z=0x0004 decodes to X=0x048D, Y=-4 (0xFFFC as a 16-bit word), Z=0x0001. *)
Theorem acceleration_decode (host : byte_order) (data : mma8451q_acc_t) (b : bus) :
  let out := eval (MMA8451Q_ReadAcceleration14bitNoFifo host data) b in
  let native k := load_int16 host (wire b k) (wire b (k + 1)) in
  let sent k := big_endian_int16 (wire b k) (wire b (k + 1)) in
  (if endianCorrectionRequired host FROM_BIG_ENDIAN
   then x out = Z.shiftr (i16 (ENDIANSWAP_16 (native 1))) 2 /\
        y out = Z.shiftr (i16 (ENDIANSWAP_16 (native 3))) 2 /\
        z out = Z.shiftr (i16 (ENDIANSWAP_16 (native 5))) 2
   else x out = Z.shiftr (native 1) 2 /\
        y out = Z.shiftr (native 3) 2 /\
        z out = Z.shiftr (native 5) 2) /\
  (endianCorrectionRequired host FROM_BIG_ENDIAN = true <-> host = LittleEndian) /\
  (x out = Z.shiftr (sent 1) 2 /\
   y out = Z.shiftr (sent 3) 2 /\
   z out = Z.shiftr (sent 5) 2) /\
  ((x out < 0 <-> sent 1 < 0) /\
   (y out < 0 <-> sent 3 < 0) /\
   (z out < 0 <-> sent 5 < 0)) /\
  (map (wire b) [1; 2; 3; 4; 5; 6] = [0x12; 0x34; 0xFF; 0xF0; 0x00; 0x04] ->
   x out = 0x048D /\ y out = -4 /\ u16 (y out) = 0xFFFC /\ z out = 0x0001).
Proof.
  intros out native sent.
  assert (Hsent : x out = Z.shiftr (sent 1) 2 /\
                  y out = Z.shiftr (sent 3) 2 /\
                  z out = Z.shiftr (sent 5) 2).
  { subst out sent. rewrite ReadAcceleration_eval. cbn [x y z].
    rewrite !decoded_axis_big_endian by apply u8_range. auto. }
  repeat apply conj.
  - subst out native. rewrite ReadAcceleration_eval. cbn [x y z].
    unfold decoded_axis. destruct host; cbn [endianCorrectionRequired]; auto.
  - destruct host; cbn [endianCorrectionRequired]; intros H;
      try reflexivity; discriminate H.
  - destruct host; cbn [endianCorrectionRequired]; intros H;
      try reflexivity; discriminate H.
  - apply Hsent.
  - apply Hsent.
  - apply Hsent.
  - destruct Hsent as (-> & _ & _). apply shiftr_2_sign.
  - destruct Hsent as (-> & _ & _). apply shiftr_2_sign.
  - destruct Hsent as (_ & -> & _). apply shiftr_2_sign.
  - destruct Hsent as (_ & -> & _). apply shiftr_2_sign.
  - destruct Hsent as (_ & _ & ->). apply shiftr_2_sign.
  - destruct Hsent as (_ & _ & ->). apply shiftr_2_sign.
  - intros H. cbn [map] in H. injection H as H1 H2 H3 H4 H5 H6.
    destruct Hsent as (-> & -> & ->). subst sent. cbv beta.
    change (1 + 1) with 2. change (3 + 1) with 4. change (5 + 1) with 6.
    rewrite H1, H2, H3, H4, H5, H6. repeat apply conj; reflexivity.
Qed.

(** C6: reading the acceleration issues exactly one bus transaction, a burst
    read of seven consecutive registers starting at the status register, and
    no single-register read; the status byte and the three axes of the
    returned sample are all taken from the registers as that one burst found
    them. *)
Theorem read_acceleration_single_burst
    (host : byte_order) (data : mma8451q_acc_t) (b : bus) :
  let b' := exec (MMA8451Q_ReadAcceleration14bitNoFifo host data) b in
  let out := eval (MMA8451Q_ReadAcceleration14bitNoFifo host data) b in
  log b' = log b ++ [ReadRegisters MMA8451Q_I2CADDR MMA8451Q_REG_STATUS 7] /\
  regs b' = regs b /\
  status out = wire b 0 /\
  x out = Z.shiftr (big_endian_int16 (wire b 1) (wire b 2)) 2 /\
  y out = Z.shiftr (big_endian_int16 (wire b 3) (wire b 4)) 2 /\
  z out = Z.shiftr (big_endian_int16 (wire b 5) (wire b 6)) 2.
Proof.
  intros b' out. subst b' out. rewrite ReadAcceleration_eval. cbn [status x y z].
  rewrite !decoded_axis_big_endian by apply u8_range.
  unfold MMA8451Q_ReadAcceleration14bitNoFifo. rewrite exec_bind.
  repeat apply conj; reflexivity.
Qed.

(** C10: whatever the burst read delivers and whatever the host's byte order
    is, each axis of the decoded sample lies between -8192 and 8191. *)
Theorem acceleration_range (host : byte_order) (data : mma8451q_acc_t) (b : bus) :
  let out := eval (MMA8451Q_ReadAcceleration14bitNoFifo host data) b in
  (-8192 <= x out <= 8191) /\
  (-8192 <= y out <= 8191) /\
  (-8192 <= z out <= 8191).
Proof.
  intros out. subst out. rewrite ReadAcceleration_eval. cbn [x y z].
  repeat apply conj; apply decoded_axis_range.
Qed.

(** ** Further properties of the driver *)

(** X1: every operation on one register leaves all other registers of the
    bus as they were. *)
Theorem other_registers_untouched (b : bus) (s r : Z) :
  (forall datarate lownoise,
      s <> MMA8451Q_I2CADDR \/ r <> MMA8451Q_REG_CTRL_REG1 ->
      regs (exec (MMA8451Q_SetDataRate datarate lownoise) b) s r = regs b s r) /\
  (forall oversampling,
      s <> MMA8451Q_I2CADDR \/ r <> MMA8451Q_REG_CTRL_REG2 ->
      regs (exec (MMA8451Q_SetOversampling oversampling) b) s r = regs b s r) /\
  (forall sensitivity highpassEnabled,
      s <> MMA8451Q_I2CADDR \/ r <> MMA8451Q_REG_XZY_DATA_CFG ->
      regs (exec (MMA8451Q_SetSensitivity sensitivity highpassEnabled) b) s r =
      regs b s r) /\
  (forall mode polarity,
      s <> MMA8451Q_I2CADDR \/ r <> MMA8451Q_REG_CTRL_REG3 ->
      regs (exec (MMA8451Q_SetInterruptMode mode polarity) b) s r = regs b s r) /\
  (forall irq pin,
      s <> MMA8451Q_I2CADDR \/
      (r <> MMA8451Q_REG_CTRL_REG4 /\ r <> MMA8451Q_REG_CTRL_REG5) ->
      regs (exec (MMA8451Q_ConfigureInterrupt irq pin) b) s r = regs b s r) /\
  (s <> MMA8451Q_I2CADDR \/
   (r <> MMA8451Q_REG_CTRL_REG4 /\ r <> MMA8451Q_REG_CTRL_REG5) ->
   regs (exec MMA8451Q_ClearInterruptConfiguration b) s r = regs b s r).
Proof.
  repeat apply conj; intros.
  - unfold MMA8451Q_SetDataRate. rewrite regs_modify. now apply store_other.
  - unfold MMA8451Q_SetOversampling. rewrite regs_modify. now apply store_other.
  - unfold MMA8451Q_SetSensitivity. rewrite regs_write. now apply store_other.
  - unfold MMA8451Q_SetInterruptMode. rewrite regs_modify. now apply store_other.
  - unfold MMA8451Q_ConfigureInterrupt.
    destruct pin; simpl intpin_eqb; cbv iota beta;
      rewrite exec_bind; cbv beta; rewrite !regs_modify;
      rewrite !store_other by tauto; reflexivity.
  - unfold MMA8451Q_ClearInterruptConfiguration.
    rewrite exec_bind. cbv beta. rewrite !regs_write.
    rewrite !store_other by tauto. reflexivity.
Qed.

(** X2: configuring an interrupt source updates the routing register first and
    the enable register second, each by one read-modify-write, and leaves
    the bit of the source set in the enable register CTRL_REG4. *)
Theorem interrupt_enabled (b : bus) (irq : Z) (pin : mma8451q_intpin_t) :
  0 <= irq < 8 ->
  let b' := exec (MMA8451Q_ConfigureInterrupt irq pin) b in
  (exists clearMask setMask,
      log b' = log b ++
        [ModifyRegister MMA8451Q_I2CADDR MMA8451Q_REG_CTRL_REG5 clearMask setMask;
         ModifyRegister MMA8451Q_I2CADDR MMA8451Q_REG_CTRL_REG4
                        I2C_MOD_NO_AND_MASK (u8 (shl 1 irq))]) /\
  Z.testbit (regs b' MMA8451Q_I2CADDR MMA8451Q_REG_CTRL_REG4) irq = true.
Proof.
  intros Hirq b'. subst b'. unfold MMA8451Q_ConfigureInterrupt.
  destruct pin; simpl intpin_eqb; cbv iota beta;
    rewrite exec_bind; cbv beta; (split;
    [ do 2 eexists; rewrite !log_modify, <- app_assoc; reflexivity
    | rewrite regs_modify, store_same, testbit_modified, testbit_irq_bit by lia;
      rewrite Z.eqb_refl; destruct (Z.ltb_spec irq 8); [ | lia ];
      simpl; apply orb_true_r ]).
Qed.



(** Fetching a configuration and storing it back unchanged issues no bus
    transaction at all and leaves the bus as it was. *)
Lemma fetch_store_round_trip (c : mma8451q_confreg_t) (b : bus) :
  match MMA8451Q_FetchConfiguration (Some c) b with
  | Returned (c1, b1) => MMA8451Q_StoreConfiguration (Some c1) b1 = Returned (c, b)
  | AssertionFailed => False
  end.
Proof. reflexivity. Qed.

(** ** Reading a field back *)

Lemma testbit_shl (a n i : Z) :
  0 <= i < 32 -> Z.testbit (shl a n) i = Z.testbit a (i - n).
Proof.
  intros Hi. unfold shl. rewrite testbit_i32 by lia. apply Z.shiftl_spec. lia.
Qed.

Lemma testbit_field_mask (w sh i : Z) :
  0 <= w -> 0 <= sh -> 0 <= i ->
  Z.testbit (field_mask w sh) i = (sh <=? i) && (i <? sh + w).
Proof.
  intros Hw Hs Hi. unfold field_mask. rewrite Z.shiftl_spec by lia.
  destruct (Z.leb_spec sh i) as [Hle | Hlt].
  - rewrite Z.testbit_ones_nonneg by lia. simpl.
    destruct (Z.ltb_spec (i - sh) w), (Z.ltb_spec i (sh + w)); lia || reflexivity.
  - now rewrite Z.testbit_neg_r by lia.
Qed.

(** The field of a value assembled as [(shifted & mask) | rest]. *)
Lemma value_field (shifted rest a w sh : Z) :
  0 <= w -> 0 <= sh -> sh + w <= 8 ->
  (forall j, 0 <= j < w -> Z.testbit shifted (j + sh) = Z.testbit a j) ->
  Z.land rest (field_mask w sh) = 0 ->
  field (u8 (Z.lor (Z.land shifted (field_mask w sh)) rest)) (field_mask w sh) sh =
  a mod 2 ^ w.
Proof.
  intros Hw Hs Hfit Hshift Hrest. apply Z.bits_inj'. intros j Hj.
  unfold field. rewrite Z.shiftr_spec, Z.testbit_mod_pow2 by lia. bits.
  assert (Hr : Z.testbit rest (j + sh) && Z.testbit (field_mask w sh) (j + sh) = false).
  { rewrite <- Z.land_spec, Hrest. apply Z.bits_0. }
  rewrite testbit_field_mask in * by lia.
  destruct (Z.leb_spec sh (j + sh)); [ | lia ].
  destruct (Z.ltb_spec (j + sh) (sh + w)), (Z.ltb_spec j w);
    try (exfalso; lia).
  - rewrite Hshift by lia. simpl in *. rewrite andb_true_r in Hr. rewrite Hr.
    destruct (Z.ltb_spec (j + sh) 8); [ | lia ]. simpl. btauto.
  - simpl. now rewrite !andb_false_r.
Qed.

(** A read-modify-write whose AND mask clears the field leaves in the field
    what the OR mask holds there. *)
Lemma modified_field (current andMask v m sh : Z) :
  is_byte v -> Z.land andMask m = 0 ->
  field (modified current andMask v) m sh = field v m sh.
Proof.
  intros Hv Hm. unfold field. f_equal. apply Z.bits_inj'. intros i Hi.
  rewrite !Z.land_spec, testbit_modified.
  assert (Ha : Z.testbit andMask i && Z.testbit m i = false).
  { rewrite <- Z.land_spec, Hm. apply Z.bits_0. }
  rewrite <- (u8_of_byte v Hv), testbit_u8.
  destruct (Z.testbit m i); [ | now rewrite !andb_false_r ].
  rewrite andb_true_r in Ha. rewrite Ha. btauto.
Qed.

Lemma modified_zero_mask (current v : Z) : modified current 0 v = u8 v.
Proof.
  apply Z.bits_inj'. intros i Hi. rewrite testbit_modified, testbit_u8, Z.bits_0.
  btauto.
Qed.

(** Side conditions of [value_field] for the driver's shifted arguments. *)
Ltac shifted_bits :=
  intros ? ?;
  unfold CTRL_REG1_DR_SHIFT, CTRL_REG1_LNOISE_SHIFT, CTRL_REG2_MODS_SHIFT,
    CTRL_REG3_IPOL_SHIFT, CTRL_REG3_PPOD_SHIFT;
  first [ rewrite testbit_shl by lia; f_equal; lia
        | rewrite Z.add_0_r; reflexivity ].

Ltac disjoint_masks :=
  first [ reflexivity
        | rewrite <- Z.land_assoc; apply Z.land_0_r ].

Lemma SetDataRate_value_fields (datarate lownoise : Z) :
  field (SetDataRate_value datarate lownoise) CTRL_REG1_DR_MASK CTRL_REG1_DR_SHIFT =
  datarate mod 8 /\
  field (SetDataRate_value datarate lownoise)
        CTRL_REG1_LNOISE_MASK CTRL_REG1_LNOISE_SHIFT = lownoise mod 2.
Proof.
  unfold SetDataRate_value. split.
  - apply (value_field _ _ datarate 3 3); try lia; [shifted_bits | disjoint_masks].
  - rewrite Z.lor_comm.
    apply (value_field _ _ lownoise 1 2); try lia; [shifted_bits | disjoint_masks].
Qed.

Lemma SetOversampling_value_field (oversampling : Z) :
  field (SetOversampling_value oversampling) CTRL_REG2_MODS_MASK CTRL_REG2_MODS_SHIFT =
  oversampling mod 8.
Proof.
  unfold SetOversampling_value.
  rewrite <- (Z.lor_0_r (Z.land _ CTRL_REG2_MODS_MASK)).
  apply (value_field _ _ oversampling 3 3); try lia; [shifted_bits | disjoint_masks].
Qed.

Lemma SetSensitivity_value_fields (sensitivity highpassEnabled : Z) :
  field (SetSensitivity_value sensitivity highpassEnabled) 0x03 0 = sensitivity mod 4 /\
  field (SetSensitivity_value sensitivity highpassEnabled) 0x10 4 =
  highpassEnabled mod 2.
Proof.
  unfold SetSensitivity_value. split.
  - apply (value_field _ _ sensitivity 2 0); try lia; [shifted_bits | disjoint_masks].
  - rewrite Z.lor_comm.
    apply (value_field _ _ highpassEnabled 1 4); try lia;
      [shifted_bits | disjoint_masks].
Qed.

Lemma SetInterruptMode_value_fields (mode polarity : Z) :
  field (SetInterruptMode_value mode polarity)
        CTRL_REG3_PPOD_MASK CTRL_REG3_PPOD_SHIFT = mode mod 2 /\
  field (SetInterruptMode_value mode polarity)
        CTRL_REG3_IPOL_MASK CTRL_REG3_IPOL_SHIFT = polarity mod 2.
Proof.
  unfold SetInterruptMode_value. split.
  - apply (value_field _ _ mode 1 0); try lia; [shifted_bits | disjoint_masks].
  - rewrite Z.lor_comm.
    apply (value_field _ _ polarity 1 1); try lia; [shifted_bits | disjoint_masks].
Qed.

(** X5: each setter stores its arguments where a reader of the register finds
    them: masking the register with the field's mask and shifting it down by
    the field's shift gives back the argument, reduced modulo the width of
    the field (so an argument inside the field's range is read back exactly
    and one outside of it is truncated), whatever the register held. *)
Theorem field_readback (b : bus) :
  (forall datarate lownoise,
      let reg := regs (exec (MMA8451Q_SetDataRate datarate lownoise) b)
                      MMA8451Q_I2CADDR MMA8451Q_REG_CTRL_REG1 in
      field reg CTRL_REG1_DR_MASK CTRL_REG1_DR_SHIFT = datarate mod 8 /\
      field reg CTRL_REG1_LNOISE_MASK CTRL_REG1_LNOISE_SHIFT = lownoise mod 2) /\
  (forall oversampling,
      let reg := regs (exec (MMA8451Q_SetOversampling oversampling) b)
                      MMA8451Q_I2CADDR MMA8451Q_REG_CTRL_REG2 in
      field reg CTRL_REG2_MODS_MASK CTRL_REG2_MODS_SHIFT = oversampling mod 8) /\
  (forall sensitivity highpassEnabled,
      let reg := regs (exec (MMA8451Q_SetSensitivity sensitivity highpassEnabled) b)
                      MMA8451Q_I2CADDR MMA8451Q_REG_XZY_DATA_CFG in
      field reg 0x03 0 = sensitivity mod 4 /\
      field reg 0x10 4 = highpassEnabled mod 2) /\
  (forall mode polarity,
      let reg := regs (exec (MMA8451Q_SetInterruptMode mode polarity) b)
                      MMA8451Q_I2CADDR MMA8451Q_REG_CTRL_REG3 in
      field reg CTRL_REG3_PPOD_MASK CTRL_REG3_PPOD_SHIFT = mode mod 2 /\
      field reg CTRL_REG3_IPOL_MASK CTRL_REG3_IPOL_SHIFT = polarity mod 2).
Proof.
  repeat apply conj; intros; subst reg.
  - rewrite SetDataRate_regs, !modified_field by (apply u8_range || reflexivity).
    apply SetDataRate_value_fields.
  - rewrite SetOversampling_regs, modified_field by (apply u8_range || reflexivity).
    apply SetOversampling_value_field.
  - rewrite SetSensitivity_regs. apply SetSensitivity_value_fields.
  - rewrite SetInterruptMode_regs, !modified_field
      by (apply u8_range || reflexivity).
    apply SetInterruptMode_value_fields.
Qed.

(** ** Composition of the setters *)

Lemma land_u8_zero (v m : Z) : Z.land v m = 0 -> Z.land v (u8 m) = 0.
Proof.
  intros H. apply Z.bits_inj'. intros i Hi.
  apply (f_equal (fun t => Z.testbit t i)) in H.
  rewrite Z.land_spec, Z.bits_0 in H.
  rewrite Z.land_spec, testbit_u8, Z.bits_0.
  destruct (i <? 8); simpl; [exact H | apply andb_false_r].
Qed.

(** A second read-modify-write with the same AND mask replaces what the
    first one ORed in, when the first value lies outside the AND mask. *)
Lemma modified_overwrite (current m v1 v2 : Z) :
  Z.land v1 m = 0 ->
  modified (modified current m v1) m v2 = modified current m v2.
Proof.
  intros H. apply Z.bits_inj'. intros i Hi.
  apply (f_equal (fun t => Z.testbit t i)) in H.
  rewrite Z.land_spec, Z.bits_0 in H.
  rewrite !testbit_modified.
  destruct (Z.testbit v1 i), (Z.testbit m i); simpl in H;
    try discriminate H; btauto.
Qed.

Lemma modify_overwrite (s r m v1 v2 : Z) (b : bus) :
  Z.land v1 m = 0 ->
  same_regs (exec (I2C_ModifyRegister s r m v2) (exec (I2C_ModifyRegister s r m v1) b))
            (exec (I2C_ModifyRegister s r m v2) b).
Proof.
  intros H s' r'. rewrite !regs_modify. unfold store.
  split_addresses; try reflexivity. now apply modified_overwrite.
Qed.

(** X6: the last setting wins.  Calling a setter twice in a row, with any
    two argument lists, leaves every register as the second call alone would
    have left it. *)
Theorem last_setting_wins (b : bus) :
  (forall datarate lownoise datarate' lownoise',
      same_regs (exec (MMA8451Q_SetDataRate datarate' lownoise')
                      (exec (MMA8451Q_SetDataRate datarate lownoise) b))
                (exec (MMA8451Q_SetDataRate datarate' lownoise') b)) /\
  (forall oversampling oversampling',
      same_regs (exec (MMA8451Q_SetOversampling oversampling')
                      (exec (MMA8451Q_SetOversampling oversampling) b))
                (exec (MMA8451Q_SetOversampling oversampling') b)) /\
  (forall sensitivity highpassEnabled sensitivity' highpassEnabled',
      same_regs (exec (MMA8451Q_SetSensitivity sensitivity' highpassEnabled')
                      (exec (MMA8451Q_SetSensitivity sensitivity highpassEnabled) b))
                (exec (MMA8451Q_SetSensitivity sensitivity' highpassEnabled') b)) /\
  (forall mode polarity mode' polarity',
      same_regs (exec (MMA8451Q_SetInterruptMode mode' polarity')
                      (exec (MMA8451Q_SetInterruptMode mode polarity) b))
                (exec (MMA8451Q_SetInterruptMode mode' polarity') b)).
Proof.
  repeat apply conj; intros.
  - apply modify_overwrite, land_u8_zero, SetDataRate_value_owned.
  - apply modify_overwrite, land_u8_zero, SetOversampling_value_owned.
  - intros s' r'. unfold MMA8451Q_SetSensitivity. rewrite !regs_write.
    unfold store. split_addresses; reflexivity.
  - apply modify_overwrite, land_u8_zero, SetInterruptMode_value_owned.
Qed.

(** Transactions on two different registers can be exchanged. *)
Lemma store_exchange (f : Z -> Z -> Z) (s r1 v1 r2 v2 s' r' : Z) :
  r1 <> r2 ->
  store (store f s r1 v1) s r2 v2 s' r' = store (store f s r2 v2) s r1 v1 s' r'.
Proof.
  intros H. unfold store.
  destruct (Z.eqb_spec s' s), (Z.eqb_spec r' r1), (Z.eqb_spec r' r2);
    simpl; try reflexivity. exfalso. lia.
Qed.

Lemma modify_modify_exchange (s r1 m1 v1 r2 m2 v2 : Z) (b : bus) :
  r1 <> r2 ->
  same_regs (exec (I2C_ModifyRegister s r2 m2 v2) (exec (I2C_ModifyRegister s r1 m1 v1) b))
            (exec (I2C_ModifyRegister s r1 m1 v1) (exec (I2C_ModifyRegister s r2 m2 v2) b)).
Proof.
  intros H s' r'. rewrite !regs_modify.
  rewrite (store_other (regs b) s r1 _ s r2) by (right; congruence).
  rewrite (store_other (regs b) s r2 _ s r1) by (right; congruence).
  now apply store_exchange.
Qed.

Lemma modify_write_exchange (s r1 m1 v1 r2 v2 : Z) (b : bus) :
  r1 <> r2 ->
  same_regs (exec (I2C_WriteRegister s r2 v2) (exec (I2C_ModifyRegister s r1 m1 v1) b))
            (exec (I2C_ModifyRegister s r1 m1 v1) (exec (I2C_WriteRegister s r2 v2) b)).
Proof.
  intros H s' r'. rewrite !regs_modify, !regs_write, !regs_modify.
  rewrite (store_other (regs b) s r2 _ s r1) by (right; congruence).
  now apply store_exchange.
Qed.

(** X7: setters of different registers commute.  When the four registers
    CTRL_REG1, CTRL_REG2, CTRL_REG3 and XYZ_DATA_CFG are pairwise different,
    any two of the four setters leave the same registers behind in either
    order. *)
Theorem setters_commute (b : bus) :
  NoDup [MMA8451Q_REG_CTRL_REG1; MMA8451Q_REG_CTRL_REG2;
         MMA8451Q_REG_CTRL_REG3; MMA8451Q_REG_XZY_DATA_CFG] ->
  forall datarate lownoise oversampling mode polarity sensitivity highpassEnabled,
    let rate := MMA8451Q_SetDataRate datarate lownoise in
    let over := MMA8451Q_SetOversampling oversampling in
    let intr := MMA8451Q_SetInterruptMode mode polarity in
    let sens := MMA8451Q_SetSensitivity sensitivity highpassEnabled in
    same_regs (exec over (exec rate b)) (exec rate (exec over b)) /\
    same_regs (exec intr (exec rate b)) (exec rate (exec intr b)) /\
    same_regs (exec sens (exec rate b)) (exec rate (exec sens b)) /\
    same_regs (exec intr (exec over b)) (exec over (exec intr b)) /\
    same_regs (exec sens (exec over b)) (exec over (exec sens b)) /\
    same_regs (exec sens (exec intr b)) (exec intr (exec sens b)).
Proof.
  intros Hnd. intros. subst rate over intr sens.
  assert (H12 : MMA8451Q_REG_CTRL_REG1 <> MMA8451Q_REG_CTRL_REG2 /\
                MMA8451Q_REG_CTRL_REG1 <> MMA8451Q_REG_CTRL_REG3 /\
                MMA8451Q_REG_CTRL_REG1 <> MMA8451Q_REG_XZY_DATA_CFG /\
                MMA8451Q_REG_CTRL_REG2 <> MMA8451Q_REG_CTRL_REG3 /\
                MMA8451Q_REG_CTRL_REG2 <> MMA8451Q_REG_XZY_DATA_CFG /\
                MMA8451Q_REG_CTRL_REG3 <> MMA8451Q_REG_XZY_DATA_CFG).
  { inversion Hnd as [ | ? ? N1 Hnd1 ]. inversion Hnd1 as [ | ? ? N2 Hnd2 ].
    inversion Hnd2 as [ | ? ? N3 Hnd3 ]. subst. simpl in N1, N2, N3.
    repeat apply conj; intros E; rewrite ?E in *; tauto. }
  destruct H12 as (H12 & H13 & H1x & H23 & H2x & H3x).
  repeat apply conj.
  - now apply modify_modify_exchange.
  - now apply modify_modify_exchange.
  - now apply modify_write_exchange.
  - now apply modify_modify_exchange.
  - now apply modify_write_exchange.
  - now apply modify_write_exchange.
Qed.

(** ** Several interrupt sources *)

(** The enable register after [MMA8451Q_ConfigureInterrupt], when the routing
    register is another register. *)
Lemma ConfigureInterrupt_enable (irq : Z) (pin : mma8451q_intpin_t) (b : bus) :
  MMA8451Q_REG_CTRL_REG4 <> MMA8451Q_REG_CTRL_REG5 ->
  regs (exec (MMA8451Q_ConfigureInterrupt irq pin) b)
       MMA8451Q_I2CADDR MMA8451Q_REG_CTRL_REG4 =
  modified (regs b MMA8451Q_I2CADDR MMA8451Q_REG_CTRL_REG4)
           I2C_MOD_NO_AND_MASK (u8 (shl 1 irq)).
Proof.
  intros Hne. unfold MMA8451Q_ConfigureInterrupt.
  destruct pin; simpl intpin_eqb; cbv iota beta;
    rewrite exec_bind; cbv beta; rewrite !regs_modify;
    rewrite store_same;
    rewrite store_other by (right; congruence); reflexivity.
Qed.

(** Bits 0..7 of the two registers after one call. *)
Lemma enable_bit_after (irq : Z) (pin : mma8451q_intpin_t) (b : bus) (j : Z) :
  MMA8451Q_REG_CTRL_REG4 <> MMA8451Q_REG_CTRL_REG5 ->
  0 <= irq -> 0 <= j < 8 ->
  Z.testbit (regs (exec (MMA8451Q_ConfigureInterrupt irq pin) b)
                  MMA8451Q_I2CADDR MMA8451Q_REG_CTRL_REG4) j =
  Z.testbit (regs b MMA8451Q_I2CADDR MMA8451Q_REG_CTRL_REG4) j || (irq =? j).
Proof.
  intros Hne Hq Hj. rewrite ConfigureInterrupt_enable by exact Hne.
  rewrite testbit_modified, testbit_no_and_mask, testbit_irq_bit by lia.
  destruct (Z.ltb_spec j 8); [ | lia ]. simpl. btauto.
Qed.

Lemma routing_bit_after (irq : Z) (pin : mma8451q_intpin_t) (b : bus) (j : Z) :
  MMA8451Q_REG_CTRL_REG4 <> MMA8451Q_REG_CTRL_REG5 ->
  0 <= irq -> 0 <= j < 8 ->
  Z.testbit (regs (exec (MMA8451Q_ConfigureInterrupt irq pin) b)
                  MMA8451Q_I2CADDR MMA8451Q_REG_CTRL_REG5) j =
  if irq =? j
  then intpin_eqb MMA8451Q_INTPIN_INT1 pin
  else Z.testbit (regs b MMA8451Q_I2CADDR MMA8451Q_REG_CTRL_REG5) j.
Proof.
  intros Hne Hq Hj. rewrite ConfigureInterrupt_routing by exact Hne.
  destruct pin; rewrite testbit_modified.
  - rewrite testbit_no_and_mask, testbit_irq_bit by lia.
    destruct (Z.ltb_spec j 8); [ | lia ]. destruct (irq =? j); simpl; btauto.
  - rewrite testbit_irq_clear by lia. unfold I2C_MOD_NO_OR_MASK. rewrite Z.bits_0.
    destruct (Z.ltb_spec j 8); [ | lia ]. destruct (irq =? j); simpl; btauto.
Qed.

(** X8: interrupt sources accumulate.  After configuring a source and then
    another one (both bits 0..7, on distinct routing and enable registers),
    both sources are enabled in CTRL_REG4 and each one is routed in CTRL_REG5
    as its own call asked: bit set for pin 1, bit clear for pin 2. *)
Theorem interrupts_accumulate
    (b : bus) (irq : Z) (pin : mma8451q_intpin_t)
    (irq' : Z) (pin' : mma8451q_intpin_t) :
  MMA8451Q_REG_CTRL_REG4 <> MMA8451Q_REG_CTRL_REG5 ->
  0 <= irq < 8 -> 0 <= irq' < 8 -> irq <> irq' ->
  let b' := exec (MMA8451Q_ConfigureInterrupt irq' pin')
                 (exec (MMA8451Q_ConfigureInterrupt irq pin) b) in
  Z.testbit (regs b' MMA8451Q_I2CADDR MMA8451Q_REG_CTRL_REG4) irq = true /\
  Z.testbit (regs b' MMA8451Q_I2CADDR MMA8451Q_REG_CTRL_REG4) irq' = true /\
  Z.testbit (regs b' MMA8451Q_I2CADDR MMA8451Q_REG_CTRL_REG5) irq =
    intpin_eqb MMA8451Q_INTPIN_INT1 pin /\
  Z.testbit (regs b' MMA8451Q_I2CADDR MMA8451Q_REG_CTRL_REG5) irq' =
    intpin_eqb MMA8451Q_INTPIN_INT1 pin'.
Proof.
  intros Hne Hq Hq' Hd b'. subst b'.
  assert (E1 : (irq' =? irq) = false) by (apply Z.eqb_neq; congruence).
  assert (E2 : (irq =? irq') = false) by (apply Z.eqb_neq; congruence).
  repeat apply conj.
  - rewrite !enable_bit_after by (exact Hne || lia).
    rewrite Z.eqb_refl. btauto.
  - rewrite !enable_bit_after by (exact Hne || lia).
    rewrite Z.eqb_refl. btauto.
  - rewrite !routing_bit_after by (exact Hne || lia).
    now rewrite E1, Z.eqb_refl.
  - rewrite !routing_bit_after by (exact Hne || lia).
    now rewrite Z.eqb_refl.
Qed.

(** X9: an interrupt number that is no bit of a byte changes nothing.  For
    8 <= irq <= 30 (the shift is defined, the bit falls outside the
    [uint8_t] masks) [MMA8451Q_ConfigureInterrupt] leaves every register of
    a bus of bytes as it was, for either pin. *)
Theorem interrupt_out_of_range (b : bus) (irq : Z) (pin : mma8451q_intpin_t) :
  bytes_only b -> 8 <= irq <= 30 ->
  same_regs (exec (MMA8451Q_ConfigureInterrupt irq pin) b) b.
Proof.
  intros Hb Hq s r.
  assert (Hkeep : forall c m v,
             is_byte c ->
             (forall i, 0 <= i < 8 -> Z.testbit m i = true) ->
             (forall i, 0 <= i -> Z.testbit v i = false) ->
             modified c m v = c).
  { intros c m v Hc Hm Hv. apply Z.bits_inj'. intros i Hi.
    rewrite testbit_modified, (Hv i Hi).
    destruct (Z.ltb_spec i 8).
    - rewrite Hm by lia. simpl. btauto.
    - simpl. symmetry. now apply testbit_byte_high. }
  assert (Hbit : forall i, 0 <= i -> Z.testbit (u8 (shl 1 irq)) i = false).
  { intros i Hi. rewrite testbit_irq_bit by lia.
    destruct (Z.ltb_spec i 8); [ | reflexivity ].
    destruct (Z.eqb_spec irq i); [lia | reflexivity]. }
  assert (Hclr : forall i, 0 <= i < 8 -> Z.testbit (u8 (Z.lnot (shl 1 irq))) i = true).
  { intros i Hi. rewrite testbit_irq_clear by lia.
    destruct (Z.ltb_spec i 8); [ | lia ].
    destruct (Z.eqb_spec irq i); [lia | reflexivity]. }
  assert (Hff : forall i, 0 <= i < 8 -> Z.testbit I2C_MOD_NO_AND_MASK i = true).
  { intros i Hi. rewrite testbit_no_and_mask by lia.
    destruct (Z.ltb_spec i 8); [reflexivity | lia]. }
  assert (Hzero : forall i, 0 <= i -> Z.testbit I2C_MOD_NO_OR_MASK i = false).
  { intros i _. apply Z.bits_0. }
  unfold MMA8451Q_ConfigureInterrupt.
  destruct pin; simpl intpin_eqb; cbv iota beta;
    rewrite exec_bind; cbv beta; rewrite !regs_modify; unfold store;
    split_addresses;
    rewrite ?Hkeep by (auto; first [apply Hb | unfold modified; apply u8_range]);
    reflexivity.
Qed.

(** ** More on the acceleration sample *)

(** X10: the sample read is a function of the device's registers alone: it
    does not depend on what the caller's structure held before the call (all
    four fields are overwritten), nor on the byte order of the host. *)
Theorem sample_independent_of_host_and_buffer
    (host host' : byte_order) (data data' : mma8451q_acc_t) (b : bus) :
  eval (MMA8451Q_ReadAcceleration14bitNoFifo host data) b =
  eval (MMA8451Q_ReadAcceleration14bitNoFifo host' data') b.
Proof.
  rewrite !ReadAcceleration_eval.
  rewrite !decoded_axis_big_endian by apply u8_range.
  reflexivity.
Qed.

Lemma shiftr_2_exact (msb lsb : Z) :
  4 * Z.shiftr (big_endian_int16 msb lsb) 2 + lsb mod 4 = big_endian_int16 msb lsb.
Proof.
  rewrite Z.shiftr_div_pow2 by lia. unfold big_endian_int16, i16.
  change (2 ^ 2) with 4. change (2 ^ 8) with 256.
  change (2 ^ 15) with 32768. change (2 ^ 16) with 65536.
  Z.div_mod_to_equations. lia.
Qed.

(** X11: the decoder drops exactly the two padding bits.  Four times a
    decoded axis plus the two lowest bits of the second byte sent for it is
    the signed 16-bit word the device sent, on every host. *)
Theorem decode_drops_padding (host : byte_order) (data : mma8451q_acc_t) (b : bus) :
  let out := eval (MMA8451Q_ReadAcceleration14bitNoFifo host data) b in
  4 * x out + wire b 2 mod 4 = big_endian_int16 (wire b 1) (wire b 2) /\
  4 * y out + wire b 4 mod 4 = big_endian_int16 (wire b 3) (wire b 4) /\
  4 * z out + wire b 6 mod 4 = big_endian_int16 (wire b 5) (wire b 6).
Proof.
  intros out. subst out. rewrite ReadAcceleration_eval. cbn [x y z].
  rewrite !decoded_axis_big_endian by apply u8_range.
  repeat apply conj; apply shiftr_2_exact.
Qed.

End MMA8451Q.

(** * Instances at the data sheet's addresses *)

Import Datasheet.

(** The frame theorem on a bus whose registers all hold 0xA5, at bit 7 of
    CTRL_REG1, which [MMA8451Q_SetDataRate] does not own. *)
Lemma bit_field_frame_witness :
  Z.testbit (regs (exec (MMA8451Q_SetDataRate I2CADDR REG_CTRL_REG1 7 1) (filled 0xA5))
                  I2CADDR REG_CTRL_REG1) 7 =
  Z.testbit (regs (filled 0xA5) I2CADDR REG_CTRL_REG1) 7.
Proof.
  refine (proj1 (bit_field_frame I2CADDR REG_XYZ_DATA_CFG REG_CTRL_REG1
                                 REG_CTRL_REG2 REG_CTRL_REG3 (filled 0xA5) 7 _)
                7 1 _).
  - unfold bytes_only, is_byte. simpl. lia.
  - reflexivity.
Defined.

(** C1 as stated fails for set sensitivity / high-pass enable: bit 7 is
    outside the fields 0x03 and 0x10, it is set in a register holding 0xFF,
    and it is clear after the call. *)
Lemma set_sensitivity_overwrites :
  bytes_only (filled 0xFF) /\
  Z.testbit SetSensitivity_owned 7 = false /\
  Z.testbit (regs (filled 0xFF) I2CADDR REG_XYZ_DATA_CFG) 7 = true /\
  Z.testbit (regs (exec (MMA8451Q_SetSensitivity I2CADDR REG_XYZ_DATA_CFG 2 1)
                        (filled 0xFF))
                  I2CADDR REG_XYZ_DATA_CFG) 7 = false.
Proof.
  repeat apply conj; try reflexivity.
  unfold bytes_only, is_byte. simpl. lia.
Qed.

(** The routing theorem for the data-ready interrupt (bit 0) on a bus whose
    registers all hold 0xA5. *)
Lemma interrupt_routing_witness :
  Z.testbit (regs (exec (MMA8451Q_ConfigureInterrupt
                           I2CADDR REG_CTRL_REG4 REG_CTRL_REG5 0 MMA8451Q_INTPIN_INT1)
                        (filled 0xA5))
                  I2CADDR REG_CTRL_REG5) 0 = true /\
  Z.testbit (regs (exec (MMA8451Q_ConfigureInterrupt
                           I2CADDR REG_CTRL_REG4 REG_CTRL_REG5 0 MMA8451Q_INTPIN_INT2)
                        (filled 0xA5))
                  I2CADDR REG_CTRL_REG5) 0 = false.
Proof.
  refine (let H := interrupt_routing I2CADDR REG_CTRL_REG4 REG_CTRL_REG5
                                     (filled 0xA5) 0 _ _ _ in
          conj (proj1 H) (proj1 (proj2 H))).
  - unfold bytes_only, is_byte. simpl. lia.
  - lia.
  - discriminate.
Defined.

(** C2 as stated fails: with pin 1 selected the bit of the source is set in
    the routing register afterwards, not clear, and with pin 2 selected it is
    clear, not set. *)
Lemma pin1_sets_routing_bit :
  Z.testbit (regs (exec (MMA8451Q_ConfigureInterrupt
                           I2CADDR REG_CTRL_REG4 REG_CTRL_REG5 0 MMA8451Q_INTPIN_INT1)
                        (filled 0x00))
                  I2CADDR REG_CTRL_REG5) 0 <> false /\
  Z.testbit (regs (exec (MMA8451Q_ConfigureInterrupt
                           I2CADDR REG_CTRL_REG4 REG_CTRL_REG5 0 MMA8451Q_INTPIN_INT2)
                        (filled 0xFF))
                  I2CADDR REG_CTRL_REG5) 0 <> true.
Proof. split; discriminate. Qed.

(** The decoder on a little-endian host, for the wire sample X=0x1234,
    Y=0xFFF0, Z=0x0004 behind a status byte 0x0F. *)
Lemma acceleration_decode_witness :
  let out := eval (MMA8451Q_ReadAcceleration14bitNoFifo
                     I2CADDR REG_STATUS LittleEndian (mkAcc 0 0 0 0))
                  (holding [0x0F; 0x12; 0x34; 0xFF; 0xF0; 0x00; 0x04]) in
  x out = 0x048D /\ y out = -4 /\ u16 (y out) = 0xFFFC /\ z out = 0x0001.
Proof.
  refine (proj2 (proj2 (proj2 (proj2
           (acceleration_decode I2CADDR REG_STATUS LittleEndian (mkAcc 0 0 0 0)
              (holding [0x0F; 0x12; 0x34; 0xFF; 0xF0; 0x00; 0x04]))))) _).
  reflexivity.
Defined.

(** C3 fails on the code: an aggregate whose WHO_AM_I field (register 0x0D)
    holds 0 is handed in while the device holds 0x1A there; the call returns
    with no bus transaction and the field still 0. *)
Lemma fetch_configuration_reads_nothing :
  let c := [mkField 0x0D 0] in
  let b := filled 0x1A in
  MMA8451Q_FetchConfiguration (Some c) b = Returned (c, b) /\
  log b = [] /\
  ~ reflects_device I2CADDR c b.
Proof.
  repeat apply conj; try reflexivity.
  intros H. inversion H as [ | f l Hf Hl ]. discriminate Hf.
Qed.

(** Setting the data rate leaves CTRL_REG2 as it was. *)
Lemma other_registers_untouched_witness :
  regs (exec (MMA8451Q_SetDataRate I2CADDR REG_CTRL_REG1 7 1) (filled 0xA5))
       I2CADDR REG_CTRL_REG2 =
  regs (filled 0xA5) I2CADDR REG_CTRL_REG2.
Proof.
  refine (proj1 (other_registers_untouched
                   I2CADDR REG_XYZ_DATA_CFG REG_CTRL_REG1 REG_CTRL_REG2
                   REG_CTRL_REG3 REG_CTRL_REG4 REG_CTRL_REG5
                   (filled 0xA5) I2CADDR REG_CTRL_REG2) 7 1 _).
  right. discriminate.
Defined.

(** Routing the data-ready interrupt (bit 0) to pin 2 enables it. *)
Lemma interrupt_enabled_witness :
  Z.testbit (regs (exec (MMA8451Q_ConfigureInterrupt
                           I2CADDR REG_CTRL_REG4 REG_CTRL_REG5 0 MMA8451Q_INTPIN_INT2)
                        (filled 0x00))
                  I2CADDR REG_CTRL_REG4) 0 = true.
Proof.
  refine (proj2 (interrupt_enabled I2CADDR REG_CTRL_REG4 REG_CTRL_REG5
                                   (filled 0x00) 0 MMA8451Q_INTPIN_INT2 _)).
  lia.
Defined.


(** Setting the data rate and setting the oversampling mode commute at the
    data sheet's addresses. *)
Lemma setters_commute_witness :
  same_regs
    (exec (MMA8451Q_SetOversampling I2CADDR REG_CTRL_REG2 2)
          (exec (MMA8451Q_SetDataRate I2CADDR REG_CTRL_REG1 7 1) (filled 0xA5)))
    (exec (MMA8451Q_SetDataRate I2CADDR REG_CTRL_REG1 7 1)
          (exec (MMA8451Q_SetOversampling I2CADDR REG_CTRL_REG2 2) (filled 0xA5))).
Proof.
  refine (proj1 (setters_commute I2CADDR REG_XYZ_DATA_CFG REG_CTRL_REG1
                                 REG_CTRL_REG2 REG_CTRL_REG3 (filled 0xA5) _
                                 7 1 2 1 0 2 1)).
  repeat constructor; simpl; intuition discriminate.
Defined.

(** Data-ready (bit 0) on pin 1, then free-fall/motion (bit 2) on pin 2. *)
Lemma interrupts_accumulate_witness :
  let b' := exec (MMA8451Q_ConfigureInterrupt I2CADDR REG_CTRL_REG4 REG_CTRL_REG5
                                              2 MMA8451Q_INTPIN_INT2)
                 (exec (MMA8451Q_ConfigureInterrupt I2CADDR REG_CTRL_REG4 REG_CTRL_REG5
                                                    0 MMA8451Q_INTPIN_INT1)
                       (filled 0x00)) in
  Z.testbit (regs b' I2CADDR REG_CTRL_REG4) 0 = true /\
  Z.testbit (regs b' I2CADDR REG_CTRL_REG4) 2 = true /\
  Z.testbit (regs b' I2CADDR REG_CTRL_REG5) 0 = true /\
  Z.testbit (regs b' I2CADDR REG_CTRL_REG5) 2 = false.
Proof.
  refine (interrupts_accumulate I2CADDR REG_CTRL_REG4 REG_CTRL_REG5 (filled 0x00)
                                0 MMA8451Q_INTPIN_INT1 2 MMA8451Q_INTPIN_INT2
                                _ _ _ _).
  - discriminate.
  - lia.
  - lia.
  - discriminate.
Defined.

(** Interrupt number 8 on a bus filled with 0xA5. *)
Lemma interrupt_out_of_range_witness :
  same_regs (exec (MMA8451Q_ConfigureInterrupt I2CADDR REG_CTRL_REG4 REG_CTRL_REG5
                                               8 MMA8451Q_INTPIN_INT2)
                  (filled 0xA5))
            (filled 0xA5).
Proof.
  refine (interrupt_out_of_range I2CADDR REG_CTRL_REG4 REG_CTRL_REG5 (filled 0xA5)
                                 8 MMA8451Q_INTPIN_INT2 _ _).
  - unfold bytes_only, is_byte. simpl. lia.
  - lia.
Defined.

(** * The MPU6050 register map *)

Import MPU6050.
Import String.StringSyntax.
Local Open Scope string_scope.
Local Open Scope Z_scope.

Lemma ascending_head (a : Z) (l : list Z) :
  ascending (a :: l) = true -> Forall (fun b => a < b) l.
Proof.
  revert a. induction l as [ | c l IH ]; intros a H.
  - constructor.
  - cbn [ascending] in H. apply andb_prop in H. destruct H as [Hac Hl].
    apply Z.ltb_lt in Hac. constructor; [exact Hac | ].
    apply (Forall_impl _ (P := fun b => c < b)); [ intros; lia | now apply IH ].
Qed.

Lemma ascending_tail (a : Z) (l : list Z) :
  ascending (a :: l) = true -> ascending l = true.
Proof.
  destruct l as [ | c l ]; [reflexivity | ].
  cbn [ascending]. intros H. now apply andb_prop in H.
Qed.

Lemma ascending_NoDup (l : list Z) : ascending l = true -> NoDup l.
Proof.
  induction l as [ | a l IH ]; intros H; constructor.
  - intros Hin. pose proof (ascending_head a l H) as Hlt.
    rewrite Forall_forall in Hlt. specialize (Hlt a Hin). lia.
  - apply IH. now apply ascending_tail with a.
Qed.

(** X12: no two register macros of the MPU6050 header share an address: the
    table is strictly ascending in the order of the header, and every
    address fits the seven bits 0x00..0x7F. *)
Theorem mpu6050_addresses_distinct :
  ascending (map reg_addr registers) = true /\
  NoDup (map reg_addr registers) /\
  Forall (fun r => 0 <= reg_addr r <= 0x7F) registers.
Proof.
  assert (H : ascending (map reg_addr registers) = true) by (vm_compute; reflexivity).
  repeat apply conj.
  - exact H.
  - now apply ascending_NoDup.
  - apply Forall_forall. intros r Hr.
    assert (Hall : forallb (fun r => (0 <=? reg_addr r) && (reg_addr r <=? 0x7F))
                           registers = true) by (vm_compute; reflexivity).
    rewrite forallb_forall in Hall. specialize (Hall r Hr).
    apply andb_prop in Hall. destruct Hall as [H0 H1].
    apply Z.leb_le in H0. apply Z.leb_le in H1. lia.
Qed.

(** X13: every member of [mpu6050_confreg_t] carries the name of a register
    of revision 4.3, the address in its comment is the address of that
    register's macro, the member is [const] exactly when the register is
    documented read-only, and the members are declared in strictly ascending
    address order. *)
Theorem mpu6050_confreg_layout :
  Forall (fun m => exists r,
              register_of m = Some r /\
              reg_rev43 r = true /\
              member_comment m = reg_addr r /\
              (is_const m = true <-> reg_access r = ReadOnly))
         mpu6050_confreg_t /\
  ascending (map address_of mpu6050_confreg_t) = true.
Proof.
  split; [ | vm_compute; reflexivity ].
  unfold mpu6050_confreg_t.
  repeat (constructor;
          [ eexists; split; [ vm_compute; reflexivity | ];
            repeat apply conj; try reflexivity;
            intros H; first [reflexivity | discriminate H] | ]).
  constructor.
Qed.

Lemma burst_bytes (slave start : Z) (n : nat) (b : bus) :
  eval (I2C_ReadRegisters slave start (Z.of_nat n)) b =
  map (fun k => u8 (regs b slave (start + Z.of_nat k))) (seq 0 n).
Proof. unfold I2C_ReadRegisters, eval. cbn [fst]. now rewrite Nat2Z.id. Qed.



(** X15: the configuration structure is no single run of registers.  Its
    members are, in order, what four bursts deliver: 4 registers from
    SMPLRT_DIV, 22 from FIFO_EN, 10 from I2C_SLV0_DO and 4 from FIFO_COUNTH.
    One burst of the size of the structure from its first register does not
    fill it: on a device whose registers each hold their own address the
    bytes delivered differ from the members' registers. *)
Theorem mpu6050_confreg_four_bursts (slave : Z) (b : bus) :
  let burst reg n := eval (I2C_ReadRegisters slave (addr reg) n) b in
  map (fun m => u8 (regs b slave (address_of m))) mpu6050_confreg_t =
  (burst "MPU6050_REG_SMPLRT_DIV" 4 ++ burst "MPU6050_REG_FIFO_EN" 22 ++
   burst "MPU6050_REG_I2C_SLV0_DO" 10 ++ burst "MPU6050_REG_FIFO_COUNTH" 4)%list /\
  sizeof mpu6050_confreg_t = 4 + 22 + 10 + 4 /\
  eval (I2C_ReadRegisters slave (addr "MPU6050_REG_SMPLRT_DIV")
                          (sizeof mpu6050_confreg_t)) numbered <>
  map (fun m => u8 (regs numbered slave (address_of m))) mpu6050_confreg_t.
Proof.
  intros burst. subst burst. repeat apply conj.
  - change 4 with (Z.of_nat 4). change 22 with (Z.of_nat 22).
    change 10 with (Z.of_nat 10). rewrite !burst_bytes.
    vm_compute. reflexivity.
  - reflexivity.
  - intros H. apply (f_equal (fun l => nth 4 l 0)) in H.
    vm_compute in H. discriminate H.
Qed.
